(** * Dashboard backend: metric calculator, insight engine, simulator and
      notification hub

    A shallow embedding of the analytical core of the dashboard backend:
    - [CalculationService] (services/calculationService.ts),
    - [AIService] (services/aiService.ts),
    - [NotificationService] (services/notificationService.ts),
    together with the record types of the Mongoose models they read
    (models/OEE.ts, models/Scrap.ts, models/JobCard.ts).

    Conventions of the embedding.
    - The services are embedded twice.  In the first part a JavaScript
      [number] is an exact rational extended by [Infinity], [-Infinity] and
      [NaN]: division by zero, comparisons with [NaN] and truthiness follow
      ECMAScript, while rounding, overflow and the sign of zero are left
      out.  It carries the properties that do not hang on the last digit:
      guards, ranges, control flow, the notification hub.
    - In the part [Double] a [number] is an IEEE 754 binary64 value and a
      plain object inherits from [Object.prototype].  It carries the
      properties that rounding, a signed zero or the name of a key decides.
    - An optional field ([station?: string]) is an [option].
    - A rejected promise or a thrown exception is the [Throw] case of
      [Result]; [try { ... } catch] is [try_catch].
    - The document store is outside the core: every function takes the
      documents its query returned. *)

From Stdlib Require Import QArith Qcanon Lqa.
From Stdlib Require Floats.
From stdpp Require Import base option list strings gmap numbers.

Local Open Scope Z_scope.

(* Decimal literals such as 1.2 stand for the nearest double. *)
Set Warnings "-inexact-float".

(** ** JavaScript numbers *)

Module JsNumber.

Inductive number : Type :=
| Fin (q : Qc)
| PInf
| NInf
| NaN.

Definition of_Z (z : Z) : number := Fin (Q2Qc (inject_Z z)).
Definition of_Q (q : Q) : number := Fin (Q2Qc q).

Definition zero : number := Fin 0%Qc.
Definition one : number := Fin 1%Qc.

Definition is_finite (x : number) : bool :=
  match x with Fin _ => true | _ => false end.

Definition Qc_ltb (a b : Qc) : bool :=
  match (a ?= b)%Qc with Lt => true | _ => false end.

Definition Qc_eqb (a b : Qc) : bool :=
  match (a ?= b)%Qc with Eq => true | _ => false end.

(** Unary minus. *)
Definition neg (x : number) : number :=
  match x with
  | Fin q => Fin (- q)%Qc
  | PInf => NInf
  | NInf => PInf
  | NaN => NaN
  end.

(** [x + y] *)
Definition add (x y : number) : number :=
  match x, y with
  | NaN, _ | _, NaN => NaN
  | PInf, NInf | NInf, PInf => NaN
  | PInf, _ | _, PInf => PInf
  | NInf, _ | _, NInf => NInf
  | Fin a, Fin b => Fin (a + b)%Qc
  end.

(** [x - y] *)
Definition sub (x y : number) : number := add x (neg y).

(** Sign of an infinite product or quotient: [true] is negative. *)
Definition inf_of_sign (negative : bool) : number :=
  if negative then NInf else PInf.

(** [x * y] *)
Definition mul (x y : number) : number :=
  match x, y with
  | NaN, _ | _, NaN => NaN
  | Fin a, Fin b => Fin (a * b)%Qc
  | Fin a, PInf | PInf, Fin a =>
      if Qc_eqb a 0 then NaN else inf_of_sign (Qc_ltb a 0)
  | Fin a, NInf | NInf, Fin a =>
      if Qc_eqb a 0 then NaN else inf_of_sign (negb (Qc_ltb a 0))
  | PInf, PInf | NInf, NInf => PInf
  | PInf, NInf | NInf, PInf => NInf
  end.

(** [x / y]: a finite non-zero number divided by zero is an infinity,
    [0 / 0] is [NaN]. *)
Definition div (x y : number) : number :=
  match x, y with
  | NaN, _ | _, NaN => NaN
  | Fin a, Fin b =>
      if Qc_eqb b 0
      then (if Qc_eqb a 0 then NaN else inf_of_sign (Qc_ltb a 0))
      else Fin (a / b)%Qc
  | Fin _, (PInf | NInf) => zero
  | PInf, Fin b => inf_of_sign (Qc_ltb b 0)
  | NInf, Fin b => inf_of_sign (negb (Qc_ltb b 0))
  | (PInf | NInf), (PInf | NInf) => NaN
  end.

(** [x < y]; false as soon as one side is [NaN]. *)
Definition ltb (x y : number) : bool :=
  match x, y with
  | NaN, _ | _, NaN => false
  | Fin a, Fin b => Qc_ltb a b
  | NInf, (Fin _ | PInf) => true
  | Fin _, PInf => true
  | _, _ => false
  end.

(** [x > y] *)
Definition gtb (x y : number) : bool := ltb y x.

(** [x === y]; [NaN] is not equal to itself. *)
Definition strict_eq (x y : number) : bool :=
  match x, y with
  | Fin a, Fin b => Qc_eqb a b
  | PInf, PInf | NInf, NInf => true
  | _, _ => false
  end.

(** [x <= y] *)
Definition leb (x y : number) : bool := ltb x y || strict_eq x y.

(** ToBoolean on a number: [0] and [NaN] are falsy. *)
Definition truthy (x : number) : bool :=
  match x with
  | Fin q => negb (Qc_eqb q 0)
  | PInf | NInf => true
  | NaN => false
  end.

(** [x || d] where [x] may be [undefined]. *)
Definition or_default (x : option number) (d : number) : number :=
  match x with
  | Some v => if truthy v then v else d
  | None => d
  end.

(** [Math.max(x, y)] *)
Definition max (x y : number) : number :=
  match x, y with
  | NaN, _ | _, NaN => NaN
  | _, _ => if ltb x y then y else x
  end.

End JsNumber.

Export JsNumber.

Declare Scope js_scope.
Delimit Scope js_scope with js.
Bind Scope js_scope with number.
Infix "+" := add : js_scope.
Infix "-" := sub : js_scope.
Infix "*" := mul : js_scope.
Infix "/" := div : js_scope.
Infix "<?" := ltb : js_scope.
Infix ">?" := gtb : js_scope.
Infix "<=?" := leb : js_scope.
Infix "===" := strict_eq (at level 70) : js_scope.

(** ** Exceptions and template literals *)

(** What a rejected promise or a [throw] carries. *)
Inductive exn : Type :=
| JsError (message : string)      (* new Error(message) *)
| TypeError                       (* property access on null/undefined *)
| AxiosError (status : option Z)  (* no response at all, or a non-2xx status *)
| StoreError.                     (* the document store rejected the query *)

Inductive Result (A : Type) : Type :=
| Ok (a : A)
| Throw (e : exn).
Arguments Ok {A} a.
Arguments Throw {A} e.

Definition bind {A B : Type} (m : Result A) (k : A -> Result B) : Result B :=
  match m with
  | Ok a => k a
  | Throw e => Throw e
  end.

(** [try { body } catch (error) { handler(error) }] *)
Definition try_catch {A : Type} (body : Result A) (handler : exn -> Result A)
  : Result A :=
  match body with
  | Ok a => Ok a
  | Throw e => handler e
  end.

#[global] Instance Result_ret : MRet Result := fun A a => Ok a.
#[global] Instance Result_bind : MBind Result := fun A B k m => bind m k.

(** A template literal keeps its interpolated values: how a number prints
    ([toFixed], ToString) is left to the runtime. *)
Inductive piece : Type :=
| Str (s : string)
| Num (x : number)                 (* ${x} *)
| ToFixed (digits : nat) (x : number)  (* ${x.toFixed(digits)} *)
| IsoDay (date : Z).               (* ${date.toISOString().split('T')[0]} *)

Definition text : Type := list piece.

(** [s || d] on an optional string: [undefined] and the empty string are
    falsy. *)
Definition str_or (s : option string) (d : string) : string :=
  match s with
  | Some v => if String.eqb v EmptyString then d else v
  | None => d
  end.

(** [`${s}`] for an optional string. *)
Definition str_interp (s : option string) : string :=
  match s with
  | Some v => v
  | None => "undefined"
  end.

(** ** Documents read from the store *)

(** models/OEE.ts, interface [IOEE]. Dates are milliseconds since the epoch. *)
Module OEE.
Record t : Type := mk {
  line : string;
  station : option string;
  shift : string;
  date : Z;
  plannedProductionTime : number;
  downtime : number;
  availability : number;
  idealCycleTime : number;
  actualCycleTime : number;
  totalUnits : number;
  performance : number;
  goodUnits : number;
  defectiveUnits : number;
  quality : number;
  oee : number
}.
End OEE.

(** models/Scrap.ts, interface [IScrap]. *)
Module Scrap.
Record t : Type := mk {
  line : string;
  station : option string;
  shift : string;
  date : Z;
  product : string;
  defectType : string;
  defectCategory : string;
  quantity : number;
  cost : number;
  isRework : bool
}.
End Scrap.

(** models/JobCard.ts, interface [IJobCard]. [startTime] is required by the
    schema; the code tests it all the same. *)
Module JobCard.
Inductive status_t : Type :=
| pending | in_progress | completed | paused | cancelled.

Record t : Type := mk {
  _id : string;
  jobNumber : string;
  operator : string;
  workstation : string;
  line : string;
  startTime : option Z;
  endTime : option Z;
  status : status_t;
  totalCycleTime : number;
  targetCycleTime : number;
  unitsCompleted : number;
  unitsScrapped : number
}.
End JobCard.

(** ** services/calculationService.ts *)

Module CalculationService.

Local Open Scope js_scope.

Definition calculateOEE (availability performance quality : number) : number :=
  (availability * performance * quality) / of_Z 10000.

Definition calculateAvailability (plannedTime downtime : number) : number :=
  if plannedTime === zero then zero
  else ((plannedTime - downtime) / plannedTime) * of_Z 100.

Definition calculatePerformance
  (idealCycleTime actualCycleTime totalUnits : number) : number :=
  if (idealCycleTime === zero) || (totalUnits === zero) then zero
  else
    let idealTime := idealCycleTime * totalUnits in
    let actualTime := actualCycleTime * totalUnits in
    (idealTime / actualTime) * of_Z 100.

Definition calculateQuality (goodUnits totalUnits : number) : number :=
  if totalUnits === zero then zero
  else (goodUnits / totalUnits) * of_Z 100.

(** One step of the [reduce] in [calculateLeadTime]. *)
Definition leadTime_step (sum : number) (job : JobCard.t) : number :=
  match JobCard.endTime job, JobCard.startTime job with
  | Some e, Some s => sum + (of_Z e - of_Z s)
  | _, _ => sum
  end.

(** [jobs] is the result of [JobCard.find({status: 'completed', ...})]. *)
Definition calculateLeadTime (jobs : list JobCard.t) : number :=
  if Nat.eqb (length jobs) 0 then zero
  else
    let totalLeadTime := fold_left leadTime_step jobs zero in
    totalLeadTime / of_Z (Z.of_nat (length jobs)) / of_Z 1000 / of_Z 60.

(** [scrapData] is [await Scrap.find(query)] and [oeeData] is
    [await OEE.find(oeeQuery)]. *)
Definition calculateScrapPercentage (scrapData : list Scrap.t)
  (oeeData : list OEE.t) : number :=
  let totalScrap :=
    fold_left (fun sum record => sum + Scrap.quantity record) scrapData zero in
  let totalUnits :=
    fold_left (fun sum record => sum + OEE.totalUnits record) oeeData zero in
  if totalUnits === zero then zero
  else (totalScrap / totalUnits) * of_Z 100.

End CalculationService.

(** ** Plain objects used as dictionaries *)

(** [{ [key: string]: number }]: the own properties in creation order.
    [Object.entries] lists array-index keys first, in ascending numeric
    order, then the other keys in creation order.  Keys that name a member
    of [Object.prototype] (such as "constructor") are not modelled here;
    [Double.JsObject] has them. *)
Module JsObject.

Definition t : Type := list (string * number).

Definition empty : t := [].

Fixpoint get (k : string) (o : t) : option number :=
  match o with
  | [] => None
  | (k', v) :: o' => if String.eqb k' k then Some v else get k o'
  end.

(** [o[k] = v]: overwrite in place, or create the property last. *)
Fixpoint set (k : string) (v : number) (o : t) : t :=
  match o with
  | [] => [(k, v)]
  | (k', v') :: o' =>
      if String.eqb k' k then (k', v) :: o' else (k', v') :: set k v o'
  end.

Definition digit_of (c : Ascii.ascii) : option N :=
  let n := Ascii.N_of_ascii c in
  if ((48 <=? n) && (n <=? 57))%N then Some (n - 48)%N else None.

Fixpoint parse_digits (s : string) (acc : N) : option N :=
  match s with
  | EmptyString => Some acc
  | String c s' =>
      match digit_of c with
      | Some d => parse_digits s' (acc * 10 + d)%N
      | None => None
      end
  end.

(** A key is an array index when it is the canonical decimal form of an
    integer below 2^32 - 1. *)
Definition array_index (s : string) : option N :=
  match s with
  | EmptyString => None
  | String c rest =>
      if N.eqb (Ascii.N_of_ascii c) 48 && negb (String.eqb rest EmptyString)
      then None (* a leading zero *)
      else
        match parse_digits s 0 with
        | Some n => if (n <? 4294967295)%N then Some n else None
        | None => None
        end
  end.

Fixpoint insert_index (p : N * (string * number))
  (l : list (N * (string * number))) : list (N * (string * number)) :=
  match l with
  | [] => [p]
  | q :: l' => if (fst p <=? fst q)%N then p :: l else q :: insert_index p l'
  end.

Definition index_props (o : t) : list (N * (string * number)) :=
  omap (fun kv => match array_index (fst kv) with
                  | Some n => Some (n, kv)
                  | None => None
                  end) o.

Definition is_index_key (kv : string * number) : bool :=
  match array_index (fst kv) with Some _ => true | None => false end.

Definition entries (o : t) : list (string * number) :=
  map snd (foldr insert_index [] (index_props o))
  ++ List.filter (fun kv => negb (is_index_key kv)) o.

End JsObject.

(** [Array.prototype.sort(compareFn)], a stable sort: [x] moves behind [y]
    only when [compareFn(x, y) > 0]. *)
Section JsSort.
Context {A : Type} (compareFn : A -> A -> number).

Fixpoint sort_insert (x : A) (l : list A) : list A :=
  match l with
  | [] => [x]
  | y :: l' =>
      if (zero <? compareFn x y)%js then y :: sort_insert x l' else x :: l
  end.

Definition js_sort (l : list A) : list A := foldr sort_insert [] l.
End JsSort.

(** [obj[key] = (obj[key] || 0) + amount], the group-by step shared by
    [detectScrapPatterns] (by defect type) and [monitorAlerts] (by line). *)
Definition accumulate (key : string) (amount : number) (obj : JsObject.t)
  : JsObject.t :=
  JsObject.set key (or_default (JsObject.get key obj) zero + amount)%js obj.

(** ** services/aiService.ts *)

Module AIInsight.
Inductive type_t : Type := anomaly | opportunity | alert | recommendation.
Inductive priority_t : Type := low | medium | high | critical.

Record impact_t : Type := mkImpact {
  timeSaved : option number;
  costImpact : option number;
  scrapReduction : option number
}.

Record t : Type := mk {
  type : type_t;
  title : string;
  description : text;
  priority : priority_t;
  impact : option impact_t;
  actionable : bool;
  actionItems : option (list string)
}.
End AIInsight.

Module AIService.

Local Open Scope js_scope.

(** The insight pushed by [detectCycleTimeAnomalies] for one record. *)
Definition cycleTimeInsight (avgCycleTime : number) (record : OEE.t)
  : AIInsight.t :=
  {| AIInsight.type := AIInsight.anomaly;
     AIInsight.title :=
       "High Cycle Time at " +:+ str_or (OEE.station record) (OEE.line record);
     AIInsight.description :=
       [Str "Cycle time is ";
        ToFixed 1 (((OEE.actualCycleTime record - avgCycleTime) / avgCycleTime)
                   * of_Z 100);
        Str "% above average"];
     AIInsight.priority := AIInsight.high;
     AIInsight.impact :=
       Some {| AIInsight.timeSaved :=
                 Some (OEE.actualCycleTime record - avgCycleTime);
               AIInsight.costImpact := None;
               AIInsight.scrapReduction := None |};
     AIInsight.actionable := true;
     AIInsight.actionItems :=
       Some ["Review workstation setup";
             "Check for material flow issues";
             "Verify operator training"] |}.

(** [oeeData.reduce((sum, record) => sum + record.actualCycleTime, 0)
     / oeeData.length] *)
Definition avgCycleTime (oeeData : list OEE.t) : number :=
  fold_left (fun sum record => sum + OEE.actualCycleTime record) oeeData zero
  / of_Z (Z.of_nat (length oeeData)).

(** [oeeData] is [await OEE.find(query).sort({date: -1}).limit(100)]: the
    most recent record comes first. *)
Definition detectCycleTimeAnomalies (oeeData : list OEE.t) : list AIInsight.t :=
  if (length oeeData <? 10)%nat then []
  else
    let avg := avgCycleTime oeeData in
    let recentData := take 7 oeeData in
    fold_left
      (fun insights record =>
         if OEE.actualCycleTime record >? avg * of_Q 1.2
         then insights ++ [cycleTimeInsight avg record]
         else insights)
      recentData [].

(** The insight pushed by [detectScrapPatterns] for the top entry. *)
Definition scrapInsight (topDefect : string * number) : AIInsight.t :=
  {| AIInsight.type := AIInsight.opportunity;
     AIInsight.title := "High Scrap Rate: " +:+ fst topDefect;
     AIInsight.description :=
       [Num (snd topDefect); Str " units scrapped due to ";
        Str (fst topDefect)];
     AIInsight.priority := AIInsight.high;
     AIInsight.impact :=
       Some {| AIInsight.timeSaved := None;
               AIInsight.costImpact := None;
               AIInsight.scrapReduction := Some (snd topDefect * of_Q 0.5) |};
     AIInsight.actionable := true;
     AIInsight.actionItems :=
       Some ["Investigate root cause";
             "Review quality control procedures";
             "Consider tooling/material changes"] |}.

(** The object built by the [forEach] of [detectScrapPatterns]. *)
Definition defectCounts (scrapData : list Scrap.t) : JsObject.t :=
  fold_left
    (fun counts record =>
       accumulate (Scrap.defectType record) (Scrap.quantity record) counts)
    scrapData JsObject.empty.

(** [Object.entries(defectCounts).sort((a, b) => b[1] - a[1])] *)
Definition sortedDefects (scrapData : list Scrap.t) : list (string * number) :=
  js_sort (fun a b => snd b - snd a) (JsObject.entries (defectCounts scrapData)).

(** [scrapData] is [await Scrap.find(query).sort({date: -1}).limit(100)]. *)
Definition detectScrapPatterns (scrapData : list Scrap.t) : list AIInsight.t :=
  if Nat.eqb (length scrapData) 0 then []
  else
    match head (sortedDefects scrapData) with
    | Some topDefect =>
        if snd topDefect >? of_Z 10 then [scrapInsight topDefect] else []
    | None => []
    end.

Definition downtimePercent (record : OEE.t) : number :=
  (OEE.downtime record / OEE.plannedProductionTime record) * of_Z 100.

(** The insight pushed by [detectDowntimePatterns] for one record. *)
Definition downtimeInsight (record : OEE.t) : AIInsight.t :=
  {| AIInsight.type := AIInsight.alert;
     AIInsight.title :=
       "High Downtime at " +:+ str_or (OEE.station record) (OEE.line record);
     AIInsight.description :=
       [ToFixed 1 (downtimePercent record); Str "% downtime on ";
        IsoDay (OEE.date record)];
     AIInsight.priority := AIInsight.critical;
     AIInsight.impact := None;
     AIInsight.actionable := true;
     AIInsight.actionItems :=
       Some ["Review downtime reasons";
             "Check equipment maintenance schedule";
             "Investigate root causes"] |}.

(** [oeeData] is [await OEE.find(query).sort({date: -1}).limit(50)]. *)
Definition detectDowntimePatterns (oeeData : list OEE.t) : list AIInsight.t :=
  if Nat.eqb (length oeeData) 0 then []
  else
    fold_left
      (fun insights record =>
         if downtimePercent record >? of_Z 15
         then insights ++ [downtimeInsight record]
         else insights)
      oeeData [].

(** *** External enrichment *)

(** What [response.data] of the enrichment endpoint may be. *)
Inductive response_data : Type :=
| DataNullish                       (* null or undefined *)
| DataOther                         (* a string, a number, an empty object *)
| DataObject (enhancedInsights : option (list AIInsight.t)).
                                    (* None: the field is absent or falsy *)

(** [await axios.post(...)]: axios rejects when no response arrives and on
    every status outside 2xx. *)
Definition axios_outcome : Type := Result response_data.

(** [response.data.enhancedInsights]: reading a property of null or
    undefined throws. *)
Definition get_enhancedInsights (data : response_data)
  : Result (option (list AIInsight.t)) :=
  match data with
  | DataNullish => Throw TypeError
  | DataOther => Ok None
  | DataObject field => Ok field
  end.

Definition enhanceWithExternalAI (post : axios_outcome)
  (insights : list AIInsight.t) : Result (list AIInsight.t) :=
  try_catch
    (data ← post;
     field ← get_enhancedInsights data;
     Ok (default insights field))
    (fun error => Ok insights).

(** [process.env.AI_SERVICE_URL], [process.env.AI_API_KEY] *)
Record config : Type := mkConfig {
  aiServiceUrl : option string;
  aiApiKey : option string
}.

Definition str_truthy (s : option string) : bool :=
  match s with
  | Some v => negb (String.eqb v EmptyString)
  | None => false
  end.

(** The three queries of one call, as they resolve or reject, and what the
    enrichment endpoint would answer. *)
Record world : Type := mkWorld {
  cycleTimeQuery : Result (list OEE.t);
  scrapQuery : Result (list Scrap.t);
  downtimeQuery : Result (list OEE.t);
  enrichment : axios_outcome
}.

(** The [try] block of [generateInsights], threading the array [insights]
    that the [catch] block returns as it stands. *)
Definition generateInsights (cfg : config) (w : world)
  : Result (list AIInsight.t) :=
  let insights := [] in
  match cycleTimeQuery w with
  | Throw error => Ok insights
  | Ok oeeData =>
      let insights := insights ++ detectCycleTimeAnomalies oeeData in
      match scrapQuery w with
      | Throw error => Ok insights
      | Ok scrapData =>
          let insights := insights ++ detectScrapPatterns scrapData in
          match downtimeQuery w with
          | Throw error => Ok insights
          | Ok oeeData' =>
              let insights := insights ++ detectDowntimePatterns oeeData' in
              if str_truthy (aiServiceUrl cfg) && str_truthy (aiApiKey cfg)
              then try_catch (enhanceWithExternalAI (enrichment w) insights)
                             (fun error => Ok insights)
              else Ok insights
          end
      end
  end.

(** *** What-if simulator *)

Record simulation_params : Type := mkParams {
  line : string;
  operators : option number;
  shiftLength : option number;
  cycleTimeAdjustment : option number
}.

Record simulation_result : Type := mkResult {
  predictedThroughput : number;
  predictedScrap : number;
  predictedOEE : number;
  costImpact : number
}.

(** [params.cycleTimeAdjustment || 1] *)
Definition cycleTimeMultiplier (params : simulation_params) : number :=
  or_default (cycleTimeAdjustment params) one.

Definition predictedCycleTime (baseOEE : OEE.t) (params : simulation_params)
  : number :=
  OEE.idealCycleTime baseOEE * cycleTimeMultiplier params.

(** [(params.shiftLength || 8) * 60] *)
Definition shiftMinutes (params : simulation_params) : number :=
  or_default (shiftLength params) (of_Z 8) * of_Z 60.

Definition availableTime (baseOEE : OEE.t) (params : simulation_params)
  : number :=
  shiftMinutes params - OEE.downtime baseOEE.

Definition predictedUnits (baseOEE : OEE.t) (params : simulation_params)
  : number :=
  availableTime baseOEE params / predictedCycleTime baseOEE params.

(** The messages of the two cycle-time checks. *)
Definition invalid_ideal_cycle_time : string :=
  "Invalid ideal cycle time in historical data. Cannot perform simulation.".
Definition invalid_predicted_cycle_time : string :=
  "Invalid predicted cycle time. Cycle time must be greater than 0.".

(** [found] is [await OEE.findOne({line}).sort({date: -1}).limit(1)]. *)
Definition runSimulation (found : option OEE.t) (params : simulation_params)
  : Result simulation_result :=
  match found with
  | None => Throw (JsError "No historical data found for simulation")
  | Some baseOEE =>
      if negb (truthy (OEE.idealCycleTime baseOEE))
         || (OEE.idealCycleTime baseOEE <=? zero)
      then Throw (JsError invalid_ideal_cycle_time)
      else if predictedCycleTime baseOEE params <=? zero
      then Throw (JsError invalid_predicted_cycle_time)
      else
        let predictedUnits := predictedUnits baseOEE params in
        let predictedScrap :=
          predictedUnits * (one - OEE.quality baseOEE / of_Z 100) in
        let predictedGoodUnits := predictedUnits - predictedScrap in
        Ok {| predictedThroughput := predictedGoodUnits;
              predictedScrap := predictedScrap;
              predictedOEE :=
                OEE.oee baseOEE * (one / cycleTimeMultiplier params);
              costImpact := predictedScrap * of_Z 50 |}
  end.

(** *** Predictions *)

Module Prediction.
Inductive metric_t : Type := leadTime | throughput | scrap | oee.

Record t : Type := mk {
  metric : metric_t;
  currentValue : number;
  predictedValue : number;
  timeframe : text;
  confidence : number
}.
End Prediction.

(** The callback of the [reduce] in [generatePredictions]. *)
Definition metric_step (metric : Prediction.metric_t) (sum : number)
  (r : OEE.t) : number :=
  match metric with
  | Prediction.oee => sum + OEE.oee r
  | Prediction.throughput => sum + OEE.goodUnits r
  | _ => sum
  end.

(** [historicalData] is [await OEE.find(query).sort({date: -1}).limit(30)];
    [days] defaults to 30 at the call. *)
Definition generatePredictions (metric : Prediction.metric_t) (days : number)
  (historicalData : list OEE.t) : list Prediction.t :=
  match historicalData with
  | [] => []
  | _ :: _ =>
      let recentAvg :=
        fold_left (metric_step metric) (take 7 historicalData) zero
        / of_Z (Z.of_nat (Nat.min 7 (length historicalData))) in
      [{| Prediction.metric := metric;
          Prediction.currentValue := recentAvg;
          Prediction.predictedValue := recentAvg * of_Q 1.02;
          Prediction.timeframe := [Num days; Str " days"];
          Prediction.confidence := of_Z 70 |}]
  end.

End AIService.

(** ** services/notificationService.ts *)

Module Notification.
Inductive type_t : Type := alert | info | warning | success.

(** [Omit<Notification, 'id' | 'timestamp' | 'read'>] *)
Record payload : Type := mkPayload {
  p_type : type_t;
  p_title : string;
  p_message : text;
  p_priority : AIInsight.priority_t;
  p_userId : option string;
  p_link : option string
}.

Record t : Type := mk {
  id : string;
  type : type_t;
  title : string;
  message : text;
  priority : AIInsight.priority_t;
  timestamp : Z;
  userId : option string;
  link : option string;
  read : bool
}.

(** [{...notification, id, timestamp: new Date(), read: false}] *)
Definition stamp (id : string) (now : Z) (p : payload) : t :=
  {| id := id; type := p_type p; title := p_title p; message := p_message p;
     priority := p_priority p; timestamp := now; userId := p_userId p;
     link := p_link p; read := false |}.

(** [notification.read = true] *)
Definition set_read (n : t) : t :=
  {| id := id n; type := type n; title := title n; message := message n;
     priority := priority n; timestamp := timestamp n; userId := userId n;
     link := link n; read := true |}.
End Notification.

Module NotificationService.

Local Open Scope js_scope.

(** The fields of the service object, and what it has emitted so far on the
    socket server (room, notification), oldest first. *)
Record state : Type := mkState {
  io : bool;
  notifications : gmap string (list Notification.t);
  emitted : list (string * Notification.t)
}.

Definition with_notifications (st : state)
  (m : gmap string (list Notification.t)) : state :=
  {| io := io st; notifications := m; emitted := emitted st |}.

Definition emit (room : string) (n : Notification.t) (st : state) : state :=
  {| io := io st; notifications := notifications st;
     emitted := emitted st ++ [(room, n)] |}.

(** [id] stands for [`${Date.now()}-${Math.random()}`] and [now] for
    [new Date()]. *)
Definition sendNotification (id : string) (now : Z) (userId : string)
  (notification : Notification.payload) (st : state) : Notification.t * state :=
  let fullNotification := Notification.stamp id now notification in
  let mailbox := default [] (notifications st !! userId) in
  let st := with_notifications st
              (<[userId := mailbox ++ [fullNotification]]> (notifications st)) in
  let st := if io st then emit ("user-" +:+ userId) fullNotification st else st in
  (fullNotification, st).

Definition getUserNotifications (userId : string) (unreadOnly : bool)
  (st : state) : list Notification.t :=
  let userNotifications := default [] (notifications st !! userId) in
  if unreadOnly
  then List.filter (fun n => negb (Notification.read n)) userNotifications
  else userNotifications.

(** [find] returns the first notification with that id; setting its flag
    changes the object held by the mailbox. *)
Definition markAsRead (userId notificationId : string) (st : state) : state :=
  match notifications st !! userId with
  | Some userNotifications =>
      match list_find (fun n => Notification.id n = notificationId)
                      userNotifications with
      | Some (i, notification) =>
          with_notifications st
            (<[userId := <[i := Notification.set_read notification]>
                           userNotifications]> (notifications st))
      | None => st
      end
  | None => st
  end.

Definition broadcastAlert (id : string) (now : Z) (role : string)
  (notification : Notification.payload) (st : state) : state :=
  if io st
  then emit ("role-" +:+ role) (Notification.stamp id now notification) st
  else st.

(** *** The periodic monitor *)

(** A call made by [monitorAlerts]. *)
Inductive action : Type :=
| Broadcast (role : string) (notification : Notification.payload)
| Send (userId : string) (notification : Notification.payload).

Definition scrapByLine (recentScrap : list Scrap.t) : JsObject.t :=
  fold_left
    (fun byLine s => accumulate (Scrap.line s) (Scrap.quantity s) byLine)
    recentScrap JsObject.empty.

Definition scrapAlert (line : string) (quantity : number) : action :=
  Broadcast "supervisor"
    {| Notification.p_type := Notification.warning;
       Notification.p_title := "High Scrap Rate: " +:+ line;
       Notification.p_message :=
         [Num quantity; Str " units scrapped in the last 24 hours"];
       Notification.p_priority := AIInsight.high;
       Notification.p_userId := None;
       Notification.p_link :=
         Some ("/waste-quality/scrap-overview?line=" +:+ line) |}.

(** [recentScrap] is every defect event of the last 24 hours. *)
Definition scrapAlerts (recentScrap : list Scrap.t) : list action :=
  fold_left
    (fun calls entry =>
       if snd entry >? of_Z 50
       then calls ++ [scrapAlert (fst entry) (snd entry)]
       else calls)
    (JsObject.entries (scrapByLine recentScrap)) [].

Definition downtimePercent (oee : OEE.t) : number :=
  (OEE.downtime oee / OEE.plannedProductionTime oee) * of_Z 100.

Definition downtimeAlert (oee : OEE.t) : action :=
  Broadcast "supervisor"
    {| Notification.p_type := Notification.alert;
       Notification.p_title :=
         "High Downtime: " +:+ str_or (OEE.station oee) (OEE.line oee);
       Notification.p_message :=
         [ToFixed 1 (downtimePercent oee); Str "% downtime detected"];
       Notification.p_priority := AIInsight.critical;
       Notification.p_userId := None;
       Notification.p_link :=
         Some ("/operational-performance/oee?station="
               +:+ str_interp (OEE.station oee)) |}.

(** [recentOEE] is every production record of the last 24 hours. *)
Definition downtimeAlerts (recentOEE : list OEE.t) : list action :=
  fold_left
    (fun calls oee =>
       if downtimePercent oee >? of_Z 20
       then calls ++ [downtimeAlert oee]
       else calls)
    recentOEE [].

Definition cycleTimeAlert (job : JobCard.t) (currentCycleTime : number)
  : action :=
  Send (JobCard.operator job)
    {| Notification.p_type := Notification.warning;
       Notification.p_title := "Cycle Time Alert";
       Notification.p_message :=
         [Str "Your current cycle time is ";
          ToFixed 1 ((currentCycleTime / JobCard.targetCycleTime job - one)
                     * of_Z 100);
          Str "% above target"];
       Notification.p_priority := AIInsight.medium;
       Notification.p_userId := None;
       Notification.p_link := Some ("/job-cards/" +:+ JobCard._id job) |}.

(** [recentJobs] is every in-progress job started in the last 4 hours. *)
Definition cycleTimeAlerts (recentJobs : list JobCard.t) : list action :=
  fold_left
    (fun calls job =>
       if JobCard.targetCycleTime job >? zero
       then
         let currentCycleTime :=
           JobCard.totalCycleTime job / max (JobCard.unitsCompleted job) one in
         if currentCycleTime >? JobCard.targetCycleTime job * of_Q 1.3
         then calls ++ [cycleTimeAlert job currentCycleTime]
         else calls
       else calls)
    recentJobs [].

(** The calls of one scan, in order; a query that rejects ends the scan
    (the [catch] block only logs). *)
Definition monitorAlerts (scrapQuery : Result (list Scrap.t))
  (oeeQuery : Result (list OEE.t)) (jobQuery : Result (list JobCard.t))
  : list action :=
  match scrapQuery with
  | Throw error => []
  | Ok recentScrap =>
      let calls := scrapAlerts recentScrap in
      match oeeQuery with
      | Throw error => calls
      | Ok recentOEE =>
          let calls := calls ++ downtimeAlerts recentOEE in
          match jobQuery with
          | Throw error => calls
          | Ok recentJobs => calls ++ cycleTimeAlerts recentJobs
          end
      end
  end.

(** *** Insights as notifications *)

(** [insight.priority === 'critical' || insight.priority === 'high'] *)
Definition forwarded (insight : AIInsight.t) : bool :=
  match AIInsight.priority insight with
  | AIInsight.critical | AIInsight.high => true
  | _ => false
  end.

(** The payload [sendAIInsights] builds for one insight. *)
Definition insightNotification (insight : AIInsight.t) : Notification.payload :=
  {| Notification.p_type :=
       match AIInsight.type insight with
       | AIInsight.alert => Notification.alert
       | _ => Notification.info
       end;
     Notification.p_title := AIInsight.title insight;
     Notification.p_message := AIInsight.description insight;
     Notification.p_priority := AIInsight.priority insight;
     Notification.p_userId := None;
     Notification.p_link := None |}.

(** The [forEach] of [sendAIInsights] from the [i]-th insight on;
    [stamps i] is the id and the time the runtime would give a notification
    sent for the [i]-th insight. *)
Fixpoint sendAIInsights_from (stamps : nat -> string * Z) (i : nat)
  (userId : string) (insights : list AIInsight.t) (st : state) : state :=
  match insights with
  | [] => st
  | insight :: rest =>
      let st :=
        if forwarded insight
        then snd (sendNotification (fst (stamps i)) (snd (stamps i)) userId
                    (insightNotification insight) st)
        else st in
      sendAIInsights_from stamps (S i) userId rest st
  end.

Definition sendAIInsights (stamps : nat -> string * Z) (userId : string)
  (insights : list AIInsight.t) (st : state) : state :=
  sendAIInsights_from stamps 0 userId insights st.

(** Carrying out the calls of a scan on the hub, the [i]-th call and the
    following ones; [stamps i] is the id and the time the runtime gives the
    notification of the [i]-th call. *)
Fixpoint perform_from (stamps : nat -> string * Z) (i : nat)
  (calls : list action) (st : state) : state :=
  match calls with
  | [] => st
  | call :: rest =>
      let st :=
        match call with
        | Broadcast role notification =>
            broadcastAlert (fst (stamps i)) (snd (stamps i)) role
              notification st
        | Send userId notification =>
            snd (sendNotification (fst (stamps i)) (snd (stamps i)) userId
                   notification st)
        end in
      perform_from stamps (S i) rest st
  end.

Definition perform (stamps : nat -> string * Z) (calls : list action)
  (st : state) : state :=
  perform_from stamps 0 calls st.

End NotificationService.

(** ** Route handlers that call the services *)

Module Routes.

Local Open Scope js_scope.

(** What a handler sends: [res.status(status).json(body)]. *)
Inductive body_t (A : Type) : Type :=
| Success (data : A)                              (* {success: true, data} *)
| Failure (message : string) (error : option exn). (* {message, error?} *)
Arguments Success {A} data.
Arguments Failure {A} message error.

Record response (A : Type) : Type := mkResponse {
  status : Z;
  body : body_t A
}.
Arguments mkResponse {A} status body.
Arguments status {A} r.
Arguments body {A} r.

(** routes/ai.ts, [POST /simulate]: [line] is [req.body.line], [found] is
    what [OEE.findOne] inside [runSimulation] resolves to or rejects
    with. *)
Definition simulate (line : option string)
  (operators shiftLength cycleTimeAdjustment : option number)
  (found : Result (option OEE.t)) : response AIService.simulation_result :=
  if negb (AIService.str_truthy line)
  then mkResponse 400 (Failure "Line parameter is required" None)
  else
    match
      baseOEE ← found;
      AIService.runSimulation baseOEE
        (AIService.mkParams (default EmptyString line) operators shiftLength
           cycleTimeAdjustment)
    with
    | Ok simulation => mkResponse 200 (Success simulation)
    | Throw error => mkResponse 500 (Failure "Server error" (Some error))
    end.

(** routes/jobCards.ts, [POST /:id/log-issue]: the insights kept in the
    response. *)
Definition issueInsights (aiInsights : list AIInsight.t) : list AIInsight.t :=
  List.filter
    (fun insight =>
       match AIInsight.type insight with
       | AIInsight.alert | AIInsight.recommendation => true
       | _ => false
       end)
    aiInsights.

(** routes/executiveSummary.ts: the [data] of the response. *)
Record summary : Type := mkSummary {
  oee_value : number;
  oee_trend : number;
  scrapPercentage_value : number;
  throughput_value : number;
  leadTime_value : number;
  productivity : number;
  waste : number;
  quality : number;
  aiQuickOpportunities : list AIInsight.t
}.

(** [l.length > 0 ? l.reduce((sum, r) => sum + r.oee, 0) / l.length : 0] *)
Definition averageOEE (l : list OEE.t) : number :=
  if (0 <? length l)%nat
  then fold_left (fun sum r => sum + OEE.oee r) l zero
       / of_Z (Z.of_nat (length l))
  else zero.

(** [oeeData], [recentOEE] and [previousOEE] are the three [OEE.find]
    results of the handler; [scrapPercentage], [throughput], [leadTime] and
    [aiInsights] are what the four service calls returned. *)
Definition executiveSummary (oeeData recentOEE previousOEE : list OEE.t)
  (scrapPercentage throughput leadTime : number)
  (aiInsights : list AIInsight.t) : summary :=
  let avgOEE := averageOEE oeeData in
  let recentAvgOEE := averageOEE recentOEE in
  let previousAvgOEE := averageOEE previousOEE in
  let oeeTrend :=
    if previousAvgOEE >? zero
    then ((recentAvgOEE - previousAvgOEE) / previousAvgOEE) * of_Z 100
    else zero in
  {| oee_value := avgOEE;
     oee_trend := oeeTrend;
     scrapPercentage_value := scrapPercentage;
     throughput_value := throughput;
     leadTime_value := leadTime;
     productivity := oeeTrend;
     waste := scrapPercentage;
     quality :=
       if avgOEE >? zero
       then fold_left (fun sum r => sum + OEE.quality r) recentOEE zero
            / of_Z (Z.of_nat (length recentOEE))
       else zero;
     aiQuickOpportunities := take 5 aiInsights |}.

End Routes.

(** ** Sample data *)

Module Samples.

(** A production record of line L1 with the given downtime, cycle times,
    quality and OEE; planned time is one 480-minute shift. *)
Definition production (downtime ideal actual quality oee : number) : OEE.t :=
  {| OEE.line := "L1"; OEE.station := Some "S1"; OEE.shift := "A";
     OEE.date := 0;
     OEE.plannedProductionTime := of_Z 480; OEE.downtime := downtime;
     OEE.availability := of_Z 90;
     OEE.idealCycleTime := ideal; OEE.actualCycleTime := actual;
     OEE.totalUnits := of_Z 200; OEE.performance := of_Z 80;
     OEE.goodUnits := of_Z 190; OEE.defectiveUnits := of_Z 10;
     OEE.quality := quality; OEE.oee := oee |}.

(** The baseline of the simulation example:
    [{idealCycleTime: 2, downtime: 30, quality: 95, oee: 68}]. *)
Definition baseline : OEE.t :=
  production (of_Z 30) (of_Z 2) (of_Z 2) (of_Z 95) (of_Z 68).

(** A baseline whose ideal cycle time is 0. *)
Definition zero_ideal_baseline : OEE.t :=
  production (of_Z 30) zero (of_Z 2) (of_Z 95) (of_Z 68).

(** The window of the cycle-time example: actualCycleTime 20 for the most
    recent record and 10 for the nine before it (mean 11). *)
Definition slow_record : OEE.t :=
  production (of_Z 30) (of_Z 2) (of_Z 20) (of_Z 95) (of_Z 68).
Definition steady_record : OEE.t :=
  production (of_Z 30) (of_Z 2) (of_Z 10) (of_Z 95) (of_Z 68).
Definition ten_records : list OEE.t := slow_record :: replicate 9 steady_record.

(** A record with 80 minutes of downtime in 480 planned minutes (16.7%). *)
Definition down80 : OEE.t :=
  production (of_Z 80) (of_Z 2) (of_Z 2) (of_Z 95) (of_Z 68).

(** A record with 120 minutes of downtime in 480 planned minutes (25%). *)
Definition down120 : OEE.t :=
  production (of_Z 120) (of_Z 2) (of_Z 2) (of_Z 95) (of_Z 68).

(** A defect event. *)
Definition defect (line defectType : string) (quantity : number) : Scrap.t :=
  {| Scrap.line := line; Scrap.station := None; Scrap.shift := "A";
     Scrap.date := 0; Scrap.product := "P1";
     Scrap.defectType := defectType; Scrap.defectCategory := "process";
     Scrap.quantity := quantity; Scrap.cost := of_Z 1;
     Scrap.isRework := false |}.

(** The window of the scrap example: defect events {A: 5, B: 12, C: 3},
    B in two events. *)
Definition defects : list Scrap.t :=
  [defect "L1" "A" (of_Z 5); defect "L1" "B" (of_Z 7);
   defect "L2" "C" (of_Z 3); defect "L1" "B" (of_Z 5)].

(** A completed job with the given timestamps. *)
Definition job (startTime endTime : option Z) : JobCard.t :=
  {| JobCard._id := "j1"; JobCard.jobNumber := "J-1";
     JobCard.operator := "u1"; JobCard.workstation := "W1";
     JobCard.line := "L1";
     JobCard.startTime := startTime; JobCard.endTime := endTime;
     JobCard.status := JobCard.completed;
     JobCard.totalCycleTime := zero; JobCard.targetCycleTime := of_Z 2;
     JobCard.unitsCompleted := zero; JobCard.unitsScrapped := zero |}.

(** A notification as [sendNotification] stores it. *)
Definition notice (id : string) (read : bool) : Notification.t :=
  {| Notification.id := id; Notification.type := Notification.info;
     Notification.title := "Shift report"; Notification.message := [Str "ready"];
     Notification.priority := AIInsight.low; Notification.timestamp := 0;
     Notification.userId := None; Notification.link := None;
     Notification.read := read |}.

(** A hub where user u1 holds one read and one unread notification. *)
Definition hub : NotificationService.state :=
  {| NotificationService.io := true;
     NotificationService.notifications :=
       {[ "u1" := [notice "n1" true; notice "n2" false] ]};
     NotificationService.emitted := [] |}.

End Samples.

(** ** Vocabulary of the specification *)

Module Spec.
Local Open Scope js_scope.

(** Section 4.1, [leadTimeMinutes]: "mean of (endTime-startTime) over jobs
    with both timestamps present; 0 if no such jobs", in minutes. *)
Definition has_both_timestamps (job : JobCard.t) : bool :=
  match JobCard.endTime job, JobCard.startTime job with
  | Some _, Some _ => true
  | _, _ => false
  end.

Definition leadTimeMinutes (completedJobs : list JobCard.t) : number :=
  let timed := List.filter has_both_timestamps completedJobs in
  if Nat.eqb (length timed) 0 then zero
  else
    fold_left CalculationService.leadTime_step timed zero
    / of_Z (Z.of_nat (length timed)) / of_Z 1000 / of_Z 60.

(** The sum and the mean of a list of numbers. *)
Definition sum (l : list number) : number := foldr add zero l.

Definition mean (l : list number) : number :=
  sum l / of_Z (Z.of_nat (length l)).

(** Section 7, PreconditionError: one of the two cycle-time errors of the
    simulator. *)
Definition precondition_error (r : Result AIService.simulation_result) : Prop :=
  r = Throw (JsError AIService.invalid_ideal_cycle_time)
  \/ r = Throw (JsError AIService.invalid_predicted_cycle_time).

(** Section 4.2: the enrichment call fails when the request is rejected
    (network error, non-2xx status) or when the body does not carry the
    field [enhancedInsights] (malformed body). *)
Definition enrichment_failed (post : AIService.axios_outcome) : Prop :=
  match post with
  | Throw _ => True
  | Ok AIService.DataNullish => True
  | Ok AIService.DataOther => True
  | Ok (AIService.DataObject None) => True
  | Ok (AIService.DataObject (Some _)) => False
  end.

(** The mailbox after its first notification with the given id, if any, is
    marked as read. *)
Fixpoint mark_first (notificationId : string) (mailbox : list Notification.t)
  : list Notification.t :=
  match mailbox with
  | [] => []
  | n :: mailbox' =>
      if String.eqb (Notification.id n) notificationId
      then Notification.set_read n :: mailbox'
      else n :: mark_first notificationId mailbox'
  end.

(** Section 4.4: marking changes at most the read flag of a notification
    with the given id. *)
Definition read_flag_only (notificationId : string) (before after : Notification.t)
  : Prop :=
  after = before
  \/ (Notification.id before = notificationId
      /\ after = Notification.set_read before).

End Spec.

(** ** Further vocabulary *)

Module Terms.
Local Open Scope js_scope.


(** What the three checks of the insight engine emit, one after the
    other. *)
Definition engine_output (oeeData : list OEE.t) (scrapData : list Scrap.t)
  (oeeData' : list OEE.t) : list AIInsight.t :=
  AIService.detectCycleTimeAnomalies oeeData
  ++ AIService.detectScrapPatterns scrapData
  ++ AIService.detectDowntimePatterns oeeData'.

(** Neither [AI_SERVICE_URL] nor [AI_API_KEY] may be missing for the
    enrichment call to be made. *)
Definition enrichment_off (cfg : AIService.config) : Prop :=
  AIService.str_truthy (AIService.aiServiceUrl cfg)
  && AIService.str_truthy (AIService.aiApiKey cfg) = false.

(** The notifications [sendAIInsights] stores for the insights from the
    [i]-th on. *)
Fixpoint insight_notices (stamps : nat -> string * Z) (i : nat)
  (insights : list AIInsight.t) : list Notification.t :=
  match insights with
  | [] => []
  | insight :: rest =>
      (if NotificationService.forwarded insight
       then [Notification.stamp (fst (stamps i)) (snd (stamps i))
               (NotificationService.insightNotification insight)]
       else [])
      ++ insight_notices stamps (S i) rest
  end.

(** The call is a [sendNotification] to that user. *)
Definition sends_to (user : string) (call : NotificationService.action)
  : Prop :=
  match call with
  | NotificationService.Send userId _ => userId = user
  | NotificationService.Broadcast _ _ => False
  end.

(** [job.totalCycleTime / Math.max(job.unitsCompleted, 1)] *)
Definition currentCycleTime (job : JobCard.t) : number :=
  (JobCard.totalCycleTime job / max (JobCard.unitsCompleted job) one)%js.

(** A job of operator u7, 100 minutes spent on 10 units, target 2. *)
Definition slow_job : JobCard.t :=
  {| JobCard._id := "j7"; JobCard.jobNumber := "J-7";
     JobCard.operator := "u7"; JobCard.workstation := "W1";
     JobCard.line := "L1";
     JobCard.startTime := Some 0; JobCard.endTime := None;
     JobCard.status := JobCard.in_progress;
     JobCard.totalCycleTime := of_Z 100; JobCard.targetCycleTime := of_Z 2;
     JobCard.unitsCompleted := of_Z 10; JobCard.unitsScrapped := zero |}.

(** Ids and times for the examples: the [i]-th call gets id "n" and
    time [i]. *)
Definition example_stamps (i : nat) : string * Z := ("n", Z.of_nat i).

End Terms.

(** * The arithmetic as the runtime does it

    The definitions of this part are those of the services once more, with
    a JavaScript [number] as what it is at run time: an IEEE 754 binary64
    value, every operation rounded to nearest, ties to even, with overflow
    to an infinity, gradual underflow, two zeros and one [NaN].  Plain
    objects used as dictionaries inherit from [Object.prototype].  What
    depends on the last digit of a result, on the sign of a zero or on the
    name of a key is stated over these definitions. *)

Module Double.
Import PrimFloat.
Local Open Scope float_scope.

Definition number : Type := float.

(** [x > y] *)
Definition gtb (x y : number) : bool := y <? x.

(** [x === y] on two numbers: [0 === -0], and [NaN] is not equal to
    itself. *)
Definition strict_eq (x y : number) : bool := x =? y.

Notation "x >? y" := (gtb x y) (at level 70, no associativity) : float_scope.
Notation "x === y" := (strict_eq x y) (at level 70) : float_scope.

(** ToBoolean on a number: [0], [-0] and [NaN] are falsy. *)
Definition truthy (x : number) : bool := negb ((x =? 0) || is_nan x).

(** [x || d] where [x] may be [undefined]. *)
Definition or_default (x : option number) (d : number) : number :=
  match x with
  | Some v => if truthy v then v else d
  | None => d
  end.

(** The length of an array as a number. *)
Definition of_nat (n : nat) : number :=
  of_uint63 (Uint63Axioms.of_Z (Z.of_nat n)).

(** A template literal keeps its interpolated values. *)
Inductive piece : Type :=
| Str (s : string)
| Num (x : number)                     (* ${x} *)
| ToFixed (digits : nat) (x : number)  (* ${x.toFixed(digits)} *)
| IsoDay (date : Z).                   (* ${date.toISOString().split('T')[0]} *)

Definition text : Type := list piece.

(** models/OEE.ts, interface [IOEE]. *)
Module OEE.
Record t : Type := mk {
  line : string;
  station : option string;
  shift : string;
  date : Z;
  plannedProductionTime : number;
  downtime : number;
  availability : number;
  idealCycleTime : number;
  actualCycleTime : number;
  totalUnits : number;
  performance : number;
  goodUnits : number;
  defectiveUnits : number;
  quality : number;
  oee : number
}.
End OEE.

(** models/Scrap.ts, interface [IScrap]; the schema leaves [line] and
    [defectType] free text. *)
Module Scrap.
Record t : Type := mk {
  line : string;
  station : option string;
  shift : string;
  date : Z;
  product : string;
  defectType : string;
  defectCategory : string;
  quantity : number;
  cost : number;
  isRework : bool
}.
End Scrap.

(** ** services/calculationService.ts *)

Module CalculationService.

Definition calculatePerformance
  (idealCycleTime actualCycleTime totalUnits : number) : number :=
  if (idealCycleTime === 0) || (totalUnits === 0) then 0
  else
    let idealTime := idealCycleTime * totalUnits in
    let actualTime := actualCycleTime * totalUnits in
    (idealTime / actualTime) * 100.

End CalculationService.

(** ** Plain objects used as dictionaries *)

(** Which keys are array indices does not depend on the arithmetic. *)
Definition array_index : string -> option N := JsObject.array_index.

(** An object created by [{}] and filled by
    [obj[key] = (obj[key] || 0) + amount]. *)
Module JsObject.

(** What a property filled that way holds: a number, or the string that
    [+] builds once a member inherited from [Object.prototype] has been
    read.  [Appended member amounts] is the text the runtime gives for that
    member (for "constructor", [function Object() { [native code] }])
    followed by the amounts in decimal. *)
Inductive value : Type :=
| VNum (x : number)
| Appended (member : string) (amounts : list number).

(** ToNumber: a string that starts with the text of a built-in is no
    numeric literal. *)
Definition to_number (v : value) : number :=
  match v with
  | VNum x => x
  | Appended _ _ => nan
  end.

(** The own properties, in creation order. *)
Definition t : Type := list (string * value).

Definition empty : t := [].

(** The property names of [Object.prototype]. *)
Definition prototype_members : list string :=
  ["constructor"; "__defineGetter__"; "__defineSetter__"; "hasOwnProperty";
   "__lookupGetter__"; "__lookupSetter__"; "isPrototypeOf";
   "propertyIsEnumerable"; "toString"; "valueOf"; "__proto__";
   "toLocaleString"].

Definition inherited (k : string) : bool :=
  existsb (String.eqb k) prototype_members.

Fixpoint own (k : string) (o : t) : option value :=
  match o with
  | [] => None
  | (k', v) :: o' => if String.eqb k' k then Some v else own k o'
  end.

(** What [o[k]] evaluates to. *)
Inductive reading : Type :=
| Own (v : value)
| FromPrototype      (* a built-in function, or the prototype itself *)
| Undefined.

Definition get (k : string) (o : t) : reading :=
  match own k o with
  | Some v => Own v
  | None => if inherited k then FromPrototype else Undefined
  end.

Fixpoint set_own (k : string) (v : value) (o : t) : t :=
  match o with
  | [] => [(k, v)]
  | (k', v') :: o' =>
      if String.eqb k' k then (k', v) :: o' else (k', v') :: set_own k v o'
  end.

(** [o[k] = v] for a number or a string [v]: overwrite in place, or create
    the property last.  Without an own property of that name, [__proto__]
    is the inherited accessor, whose setter ignores a value that is not an
    object. *)
Definition set (k : string) (v : value) (o : t) : t :=
  match own k o with
  | Some _ => set_own k v o
  | None => if String.eqb k "__proto__" then o else set_own k v o
  end.

Definition index_props (o : t) : list (N * (string * value)) :=
  omap (fun kv => match array_index (fst kv) with
                  | Some n => Some (n, kv)
                  | None => None
                  end) o.

Fixpoint insert_index (p : N * (string * value))
  (l : list (N * (string * value))) : list (N * (string * value)) :=
  match l with
  | [] => [p]
  | q :: l' => if (fst p <=? fst q)%N then p :: l else q :: insert_index p l'
  end.

Definition is_index_key (kv : string * value) : bool :=
  match array_index (fst kv) with
  | Some _ => true
  | None => false
  end.

(** [Object.entries(o)]: array-index keys first, in ascending numeric
    order, then the other keys in creation order. *)
Definition entries (o : t) : list (string * value) :=
  map snd (foldr insert_index [] (index_props o))
  ++ List.filter (fun kv => negb (is_index_key kv)) o.

End JsObject.

(** [obj[key] = (obj[key] || 0) + amount].  A number that is [0] or [NaN]
    gives way to [0]; a non-empty string and an inherited member are truthy,
    and [+] then concatenates. *)
Definition accumulate (key : string) (amount : number) (obj : JsObject.t)
  : JsObject.t :=
  JsObject.set key
    match JsObject.get key obj with
    | JsObject.Own (JsObject.VNum x) =>
        JsObject.VNum ((if truthy x then x else 0) + amount)
    | JsObject.Own (JsObject.Appended member amounts) =>
        JsObject.Appended member (amounts ++ [amount])
    | JsObject.FromPrototype => JsObject.Appended key [amount]
    | JsObject.Undefined => JsObject.VNum (0 + amount)
    end
    obj.

(** [Array.prototype.sort(compareFn)] for a [compareFn] that orders its
    arguments consistently: a stable sort, where [x] moves behind [y] only
    when [compareFn(x, y) > 0]. *)
Section JsSort.
Context {A : Type} (compareFn : A -> A -> number).

Fixpoint sort_insert (x : A) (l : list A) : list A :=
  match l with
  | [] => [x]
  | y :: l' => if 0 <? compareFn x y then y :: sort_insert x l' else x :: l
  end.

Definition js_sort (l : list A) : list A := foldr sort_insert [] l.
End JsSort.

(** ** services/aiService.ts *)

Module AIInsight.
Inductive type_t : Type := anomaly | opportunity | alert | recommendation.
Inductive priority_t : Type := low | medium | high | critical.

Record impact_t : Type := mkImpact {
  timeSaved : option number;
  costImpact : option number;
  scrapReduction : option number
}.

Record t : Type := mk {
  type : type_t;
  title : string;
  description : text;
  priority : priority_t;
  impact : option impact_t;
  actionable : bool;
  actionItems : option (list string)
}.
End AIInsight.

Module AIService.

(** The insight pushed by [detectCycleTimeAnomalies] for one record. *)
Definition cycleTimeInsight (avgCycleTime : number) (record : OEE.t)
  : AIInsight.t :=
  {| AIInsight.type := AIInsight.anomaly;
     AIInsight.title :=
       "High Cycle Time at " +:+ str_or (OEE.station record) (OEE.line record);
     AIInsight.description :=
       [Str "Cycle time is ";
        ToFixed 1 (((OEE.actualCycleTime record - avgCycleTime) / avgCycleTime)
                   * 100);
        Str "% above average"];
     AIInsight.priority := AIInsight.high;
     AIInsight.impact :=
       Some {| AIInsight.timeSaved :=
                 Some (OEE.actualCycleTime record - avgCycleTime);
               AIInsight.costImpact := None;
               AIInsight.scrapReduction := None |};
     AIInsight.actionable := true;
     AIInsight.actionItems :=
       Some ["Review workstation setup";
             "Check for material flow issues";
             "Verify operator training"] |}.

(** [oeeData.reduce((sum, record) => sum + record.actualCycleTime, 0)
     / oeeData.length] *)
Definition avgCycleTime (oeeData : list OEE.t) : number :=
  fold_left (fun sum record => sum + OEE.actualCycleTime record) oeeData 0
  / of_nat (length oeeData).

(** [oeeData] is [await OEE.find(query).sort({date: -1}).limit(100)]: the
    most recent record comes first. *)
Definition detectCycleTimeAnomalies (oeeData : list OEE.t) : list AIInsight.t :=
  if (length oeeData <? 10)%nat then []
  else
    let avg := avgCycleTime oeeData in
    let recentData := take 7 oeeData in
    fold_left
      (fun insights record =>
         if OEE.actualCycleTime record >? avg * 1.2
         then insights ++ [cycleTimeInsight avg record]
         else insights)
      recentData [].

(** The insight pushed by [detectScrapPatterns] for a top entry that holds
    a number. *)
Definition scrapInsight (defectType : string) (count : number) : AIInsight.t :=
  {| AIInsight.type := AIInsight.opportunity;
     AIInsight.title := "High Scrap Rate: " +:+ defectType;
     AIInsight.description :=
       [Num count; Str " units scrapped due to "; Str defectType];
     AIInsight.priority := AIInsight.high;
     AIInsight.impact :=
       Some {| AIInsight.timeSaved := None;
               AIInsight.costImpact := None;
               AIInsight.scrapReduction := Some (count * 0.5) |};
     AIInsight.actionable := true;
     AIInsight.actionItems :=
       Some ["Investigate root cause";
             "Review quality control procedures";
             "Consider tooling/material changes"] |}.

(** The object built by the [forEach] of [detectScrapPatterns]. *)
Definition defectCounts (scrapData : list Scrap.t) : JsObject.t :=
  fold_left
    (fun counts record =>
       accumulate (Scrap.defectType record) (Scrap.quantity record) counts)
    scrapData JsObject.empty.

(** [Object.entries(defectCounts).sort((a, b) => b[1] - a[1])]; [-] takes
    both sides through ToNumber. *)
Definition sortedDefects (scrapData : list Scrap.t)
  : list (string * JsObject.value) :=
  js_sort
    (fun a b => JsObject.to_number (snd b) - JsObject.to_number (snd a))
    (JsObject.entries (defectCounts scrapData)).

(** [scrapData] is [await Scrap.find(query).sort({date: -1}).limit(100)].
    In [topDefect[1] > 10] a string goes through ToNumber and fails the
    test as [NaN]. *)
Definition detectScrapPatterns (scrapData : list Scrap.t) : list AIInsight.t :=
  if Nat.eqb (length scrapData) 0 then []
  else
    match head (sortedDefects scrapData) with
    | Some (defectType, JsObject.VNum count) =>
        if count >? 10 then [scrapInsight defectType count] else []
    | Some (_, JsObject.Appended _ _) => []
    | None => []
    end.

Definition downtimePercent (record : OEE.t) : number :=
  (OEE.downtime record / OEE.plannedProductionTime record) * 100.

(** The insight pushed by [detectDowntimePatterns] for one record. *)
Definition downtimeInsight (record : OEE.t) : AIInsight.t :=
  {| AIInsight.type := AIInsight.alert;
     AIInsight.title :=
       "High Downtime at " +:+ str_or (OEE.station record) (OEE.line record);
     AIInsight.description :=
       [ToFixed 1 (downtimePercent record); Str "% downtime on ";
        IsoDay (OEE.date record)];
     AIInsight.priority := AIInsight.critical;
     AIInsight.impact := None;
     AIInsight.actionable := true;
     AIInsight.actionItems :=
       Some ["Review downtime reasons";
             "Check equipment maintenance schedule";
             "Investigate root causes"] |}.

(** [oeeData] is [await OEE.find(query).sort({date: -1}).limit(50)]. *)
Definition detectDowntimePatterns (oeeData : list OEE.t) : list AIInsight.t :=
  if Nat.eqb (length oeeData) 0 then []
  else
    fold_left
      (fun insights record =>
         if downtimePercent record >? 15
         then insights ++ [downtimeInsight record]
         else insights)
      oeeData [].

(** *** What-if simulator *)

Record simulation_params : Type := mkParams {
  line : string;
  operators : option number;
  shiftLength : option number;
  cycleTimeAdjustment : option number
}.

Record simulation_result : Type := mkResult {
  predictedThroughput : number;
  predictedScrap : number;
  predictedOEE : number;
  costImpact : number
}.

(** [params.cycleTimeAdjustment || 1] *)
Definition cycleTimeMultiplier (params : simulation_params) : number :=
  or_default (cycleTimeAdjustment params) 1.

Definition predictedCycleTime (baseOEE : OEE.t) (params : simulation_params)
  : number :=
  OEE.idealCycleTime baseOEE * cycleTimeMultiplier params.

(** [(params.shiftLength || 8) * 60] *)
Definition shiftMinutes (params : simulation_params) : number :=
  or_default (shiftLength params) 8 * 60.

Definition availableTime (baseOEE : OEE.t) (params : simulation_params)
  : number :=
  shiftMinutes params - OEE.downtime baseOEE.

Definition predictedUnits (baseOEE : OEE.t) (params : simulation_params)
  : number :=
  availableTime baseOEE params / predictedCycleTime baseOEE params.

(** The messages of the two cycle-time checks. *)
Definition invalid_ideal_cycle_time : string :=
  "Invalid ideal cycle time in historical data. Cannot perform simulation.".
Definition invalid_predicted_cycle_time : string :=
  "Invalid predicted cycle time. Cycle time must be greater than 0.".

(** [found] is [await OEE.findOne({line}).sort({date: -1}).limit(1)]. *)
Definition runSimulation (found : option OEE.t) (params : simulation_params)
  : Result simulation_result :=
  match found with
  | None => Throw (JsError "No historical data found for simulation")
  | Some baseOEE =>
      if negb (truthy (OEE.idealCycleTime baseOEE))
         || (OEE.idealCycleTime baseOEE <=? 0)
      then Throw (JsError invalid_ideal_cycle_time)
      else if predictedCycleTime baseOEE params <=? 0
      then Throw (JsError invalid_predicted_cycle_time)
      else
        let predictedUnits := predictedUnits baseOEE params in
        let predictedScrap :=
          predictedUnits * (1 - OEE.quality baseOEE / 100) in
        let predictedGoodUnits := predictedUnits - predictedScrap in
        Ok {| predictedThroughput := predictedGoodUnits;
              predictedScrap := predictedScrap;
              predictedOEE :=
                OEE.oee baseOEE * (1 / cycleTimeMultiplier params);
              costImpact := predictedScrap * 50 |}
  end.

End AIService.

(** ** services/notificationService.ts: the scrap and downtime scans *)

Module Notification.
Inductive type_t : Type := alert | info | warning | success.

(** [Omit<Notification, 'id' | 'timestamp' | 'read'>] *)
Record payload : Type := mkPayload {
  p_type : type_t;
  p_title : string;
  p_message : text;
  p_priority : AIInsight.priority_t;
  p_userId : option string;
  p_link : option string
}.
End Notification.

Module NotificationService.

(** A call made by [monitorAlerts]. *)
Inductive action : Type :=
| Broadcast (role : string) (notification : Notification.payload)
| Send (userId : string) (notification : Notification.payload).

Definition scrapByLine (recentScrap : list Scrap.t) : JsObject.t :=
  fold_left
    (fun byLine s => accumulate (Scrap.line s) (Scrap.quantity s) byLine)
    recentScrap JsObject.empty.

Definition scrapAlert (line : string) (quantity : number) : action :=
  Broadcast "supervisor"
    {| Notification.p_type := Notification.warning;
       Notification.p_title := "High Scrap Rate: " +:+ line;
       Notification.p_message :=
         [Num quantity; Str " units scrapped in the last 24 hours"];
       Notification.p_priority := AIInsight.high;
       Notification.p_userId := None;
       Notification.p_link :=
         Some ("/waste-quality/scrap-overview?line=" +:+ line) |}.

(** [recentScrap] is every defect event of the last 24 hours.  In
    [quantity > 50] a string goes through ToNumber and fails the test as
    [NaN]. *)
Definition scrapAlerts (recentScrap : list Scrap.t) : list action :=
  fold_left
    (fun calls entry =>
       match snd entry with
       | JsObject.VNum quantity =>
           if quantity >? 50
           then calls ++ [scrapAlert (fst entry) quantity]
           else calls
       | JsObject.Appended _ _ => calls
       end)
    (JsObject.entries (scrapByLine recentScrap)) [].

Definition downtimePercent (oee : OEE.t) : number :=
  (OEE.downtime oee / OEE.plannedProductionTime oee) * 100.

Definition downtimeAlert (oee : OEE.t) : action :=
  Broadcast "supervisor"
    {| Notification.p_type := Notification.alert;
       Notification.p_title :=
         "High Downtime: " +:+ str_or (OEE.station oee) (OEE.line oee);
       Notification.p_message :=
         [ToFixed 1 (downtimePercent oee); Str "% downtime detected"];
       Notification.p_priority := AIInsight.critical;
       Notification.p_userId := None;
       Notification.p_link :=
         Some ("/operational-performance/oee?station="
               +:+ str_interp (OEE.station oee)) |}.

(** [recentOEE] is every production record of the last 24 hours. *)
Definition downtimeAlerts (recentOEE : list OEE.t) : list action :=
  fold_left
    (fun calls oee =>
       if downtimePercent oee >? 20
       then calls ++ [downtimeAlert oee]
       else calls)
    recentOEE [].

End NotificationService.

(** ** Sample data *)

Module Samples.

(** A production record of line L1 with the given downtime, cycle times,
    quality and OEE; planned time is one 480-minute shift. *)
Definition production (downtime ideal actual quality oee : number) : OEE.t :=
  {| OEE.line := "L1"; OEE.station := Some "S1"; OEE.shift := "A";
     OEE.date := 0%Z;
     OEE.plannedProductionTime := 480; OEE.downtime := downtime;
     OEE.availability := 90;
     OEE.idealCycleTime := ideal; OEE.actualCycleTime := actual;
     OEE.totalUnits := 200; OEE.performance := 80;
     OEE.goodUnits := 190; OEE.defectiveUnits := 10;
     OEE.quality := quality; OEE.oee := oee |}.

(** The baseline of the simulation example:
    [{idealCycleTime: 2, downtime: 30, quality: 95, oee: 68}]. *)
Definition baseline : OEE.t := production 30 2 2 95 68.

(** A baseline whose ideal cycle time is 0. *)
Definition zero_ideal_baseline : OEE.t := production 30 0 2 95 68.

(** A baseline whose ideal cycle time is positive and tiny. *)
Definition tiny_ideal_baseline : OEE.t := production 30 1e-200 2 95 68.

(** A baseline with 600 minutes of downtime, more than an 8-hour shift. *)
Definition overrun : OEE.t := production 600 2 2 95 68.

(** A record with the given actualCycleTime. *)
Definition cycle (actual : number) : OEE.t := production 30 2 actual 95 68.

(** The window of the cycle-time example: actualCycleTime 20 for the most
    recent record and 10 for the nine before it (mean 11). *)
Definition ten_records : list OEE.t := cycle 20 :: replicate 9 (cycle 10).

(** Twelve records, the seven most recent at 7: the mean is 70/12 and 1.2
    times the mean is 7 in exact arithmetic. *)
Definition sevens : list OEE.t :=
  replicate 7 (cycle 7) ++ [cycle 5; cycle 5; cycle 5; cycle 4; cycle 2].

(** Records with 80 (16.7%) and 120 (25%) minutes of downtime in 480
    planned minutes. *)
Definition down80 : OEE.t := production 80 2 2 95 68.
Definition down120 : OEE.t := production 120 2 2 95 68.

(** A record with 10 minutes of downtime and the given planned production
    time. *)
Definition planned (plannedProductionTime : number) : OEE.t :=
  {| OEE.line := "L1"; OEE.station := None; OEE.shift := "A"; OEE.date := 0%Z;
     OEE.plannedProductionTime := plannedProductionTime; OEE.downtime := 10;
     OEE.availability := 0;
     OEE.idealCycleTime := 2; OEE.actualCycleTime := 2;
     OEE.totalUnits := 0; OEE.performance := 0;
     OEE.goodUnits := 0; OEE.defectiveUnits := 0;
     OEE.quality := 0; OEE.oee := 0 |}.

(** A defect event. *)
Definition defect (line defectType : string) (quantity : number) : Scrap.t :=
  {| Scrap.line := line; Scrap.station := None; Scrap.shift := "A";
     Scrap.date := 0%Z; Scrap.product := "P1";
     Scrap.defectType := defectType; Scrap.defectCategory := "process";
     Scrap.quantity := quantity; Scrap.cost := 1;
     Scrap.isRework := false |}.

(** The window of the scrap example: defect events {A: 5, B: 12, C: 3},
    B in two events. *)
Definition defects : list Scrap.t :=
  [defect "L1" "A" 5; defect "L1" "B" 7; defect "L2" "C" 3; defect "L1" "B" 5].

(** Sixty units scrapped on line L1 in two events, five on line L2. *)
Definition heavy_scrap : list Scrap.t :=
  [defect "L1" "A" 40; defect "L2" "A" 5; defect "L1" "B" 20].

(** The request of the simulation example: an 8-hour shift and the given
    cycleTimeAdjustment. *)
Definition request (cycleTimeAdjustment : number) : AIService.simulation_params :=
  AIService.mkParams "L1" None (Some 8) (Some cycleTimeAdjustment).

End Samples.

(** ** Vocabulary of the specification *)

Module Spec.

(** The sum of a list of numbers, added one after the other from 0, and
    its mean. *)
Definition sum (l : list number) : number := fold_left add l 0.

Definition mean (l : list number) : number := sum l / of_nat (length l).

(** The quantities of the records filed under [k], in order, and their
    total: "sum quantity by defectType" (section 4.2) and the per-line
    scrap of the periodic scan (section 4.4). *)
Definition filed_under {A : Type} (key : A -> string) (quantity : A -> number)
  (k : string) (records : list A) : list number :=
  map quantity (List.filter (fun r => String.eqb (key r) k) records).

Definition total {A : Type} (key : A -> string) (quantity : A -> number)
  (k : string) (records : list A) : number :=
  sum (filed_under key quantity k records).

(** Section 7, PreconditionError: one of the two cycle-time errors of the
    simulator. *)
Definition precondition_error (r : Result AIService.simulation_result) : Prop :=
  r = Throw (JsError AIService.invalid_ideal_cycle_time)
  \/ r = Throw (JsError AIService.invalid_predicted_cycle_time).

(** A quantity as the schema wants it ([min: 1]) is a finite number other
    than 0. *)
Definition countable (x : number) : bool := is_finite x && truthy x.

End Spec.

(** The [forEach] of the two group-by loops, from any starting object. *)
Definition group {A : Type} (key : A -> string) (quantity : A -> number)
  (records : list A) (o : JsObject.t) : JsObject.t :=
  fold_left (fun o r => accumulate (key r) (quantity r) o) records o.

(** Under the name [k] the object holds nothing or a number other than
    [NaN]. *)
Definition plain_at (k : string) (o : JsObject.t) : Prop :=
  match JsObject.own k o with
  | Some (JsObject.VNum c) => is_nan c = false
  | Some (JsObject.Appended _ _) => False
  | None => True
  end.

(** Under the name [k] the object holds no number. *)
Definition no_number_at (k : string) (o : JsObject.t) : Prop :=
  forall c, JsObject.own k o <> Some (JsObject.VNum c).

End Double.

(** * Proofs *)

(** ** Facts about numbers *)

Module NumberFacts.
Local Open Scope js_scope.

Lemma Qc_ltb_lt (a b : Qc) : Qc_ltb a b = true <-> (a < b)%Qc.
Proof. unfold Qc_ltb. rewrite Qclt_alt. destruct (a ?= b)%Qc; split; congruence. Qed.

Lemma Qc_eqb_eq (a b : Qc) : Qc_eqb a b = true <-> a = b.
Proof. unfold Qc_eqb. rewrite Qceq_alt. destruct (a ?= b)%Qc; split; congruence. Qed.

Lemma Qc_eqb_neq (a b : Qc) : Qc_eqb a b = false <-> a <> b.
Proof.
  rewrite <- Qc_eqb_eq. destruct (Qc_eqb a b); split; congruence.
Qed.

Lemma Qc_ltb_irrefl (a : Qc) : Qc_ltb a a = false.
Proof.
  destruct (Qc_ltb a a) eqn:E; [|done].
  apply Qc_ltb_lt in E. by apply Qclt_not_eq in E.
Qed.

Lemma Qc_ltb_asym (a b : Qc) : Qc_ltb a b = true -> Qc_ltb b a = false.
Proof.
  intros H. apply Qc_ltb_lt in H.
  destruct (Qc_ltb b a) eqn:E; [|done].
  apply Qc_ltb_lt in E. destruct (Qclt_not_le _ _ H). by apply Qclt_le_weak.
Qed.

Lemma Qc_ltb_neq (a b : Qc) : Qc_ltb a b = true -> Qc_eqb b a = false.
Proof.
  intros H. apply Qc_eqb_neq. intros ->. by rewrite Qc_ltb_irrefl in H.
Qed.

Lemma Qc_mul_pos (a b : Qc) : (0 < a)%Qc -> (0 < b)%Qc -> (0 < a * b)%Qc.
Proof.
  intros Ha Hb. rewrite <- (Qcmult_0_l b). by apply Qcmult_lt_compat_r.
Qed.

(** Equality of finite numbers is equality of the rationals they denote. *)
Lemma Fin_ext (a b : Qc) : (a == b)%Q -> Fin a = Fin b.
Proof. intros H. f_equal. by apply Qc_is_canon. Qed.

Lemma pos_truthy x : (zero <? x) = true -> truthy x = true.
Proof.
  destruct x as [q| | |]; simpl; try done.
  intros H. by rewrite (Qc_ltb_neq _ _ H).
Qed.

Lemma pos_not_le_zero x : (zero <? x) = true -> (x <=? zero) = false.
Proof.
  destruct x as [q| | |]; simpl; try done.
  intros H. unfold leb. simpl. by rewrite (Qc_ltb_asym _ _ H), (Qc_ltb_neq _ _ H).
Qed.

Lemma mul_pos x y :
  (zero <? x) = true -> (zero <? y) = true -> (zero <? x * y) = true.
Proof.
  destruct x as [a| | |], y as [b| | |]; simpl; try done.
  - rewrite !Qc_ltb_lt. apply Qc_mul_pos.
  - intros H _. by rewrite (Qc_ltb_neq _ _ H), (Qc_ltb_asym _ _ H).
  - intros _ H. by rewrite (Qc_ltb_neq _ _ H), (Qc_ltb_asym _ _ H).
Qed.

Lemma add_comm x y : x + y = y + x.
Proof.
  destruct x as [a| | |], y as [b| | |]; try done.
  simpl. f_equal. apply Qcplus_comm.
Qed.

Lemma add_assoc x y z : x + (y + z) = (x + y) + z.
Proof.
  destruct x as [a| | |], y as [b| | |], z as [c| | |]; try done.
  simpl. f_equal. apply Qcplus_assoc.
Qed.

Lemma fold_left_add_init l x y :
  fold_left add l (x + y) = x + fold_left add l y.
Proof.
  revert y. induction l as [|a l IH]; intros y; [done|].
  cbn [fold_left]. by rewrite <- add_assoc, IH.
Qed.

(** The running sum of [reduce] is the sum of the list. *)
Lemma reduce_sum (l : list number) :
  fold_left add l zero = Spec.sum l.
Proof.
  induction l as [|a l IH]; [done|].
  change (fold_left add l (zero + a) = a + Spec.sum l).
  by rewrite <- IH, (add_comm zero a), fold_left_add_init.
Qed.

End NumberFacts.

(** Closes an equation between concrete numbers, or records of them. *)
Ltac number_eq :=
  vm_compute;
  repeat match goal with
         | |- Fin _ = Fin _ => apply NumberFacts.Fin_ext; reflexivity
         | |- _ => progress f_equal
         end.

(** ** Facts about loops over arrays *)

Module ListFacts.

(** A [forEach] that pushes [f x] for the elements passing [p] appends the
    image of the filtered list. *)
Lemma fold_left_push {A B : Type} (p : A -> bool) (f : A -> B) l acc :
  fold_left (fun out x => if p x then out ++ [f x] else out) l acc
  = acc ++ map f (List.filter p l).
Proof.
  revert acc. induction l as [|x l IH]; intros acc; simpl.
  - by rewrite app_nil_r.
  - rewrite IH. destruct (p x); [|done].
    by rewrite <- app_assoc.
Qed.

End ListFacts.

(** ** The what-if simulator *)

Module SimulatorProofs.
Import NumberFacts AIService.
Local Open Scope js_scope.

Lemma runSimulation_pos baseOEE params :
  (zero <? OEE.idealCycleTime baseOEE) = true ->
  (zero <? cycleTimeMultiplier params) = true ->
  runSimulation (Some baseOEE) params =
  let predictedUnits := predictedUnits baseOEE params in
  let predictedScrap :=
    predictedUnits * (one - OEE.quality baseOEE / of_Z 100) in
  Ok {| predictedThroughput := predictedUnits - predictedScrap;
        predictedScrap := predictedScrap;
        predictedOEE := OEE.oee baseOEE * (one / cycleTimeMultiplier params);
        costImpact := predictedScrap * of_Z 50 |}.
Proof.
  intros Hideal Hmult. unfold runSimulation.
  rewrite (pos_truthy _ Hideal), (pos_not_le_zero _ Hideal). simpl.
  unfold predictedCycleTime at 1.
  by rewrite (pos_not_le_zero _ (mul_pos _ _ Hideal Hmult)).
Qed.

(** The simulation reads its parameters only through the effective
    multiplier and the shift minutes. *)
Lemma runSimulation_ext baseOEE p q :
  cycleTimeMultiplier p = cycleTimeMultiplier q ->
  shiftMinutes p = shiftMinutes q ->
  runSimulation (Some baseOEE) p = runSimulation (Some baseOEE) q.
Proof.
  intros Hm Hs.
  unfold runSimulation, predictedUnits, availableTime, predictedCycleTime.
  by rewrite Hm, Hs.
Qed.

(** C9. For a baseline with a positive ideal cycle time, a
    cycleTimeAdjustment of 0 gives the result of cycleTimeAdjustment 1 and a
    shiftLength of 0 gives the result of shiftLength 8, and a result is
    returned: falsy parameters are replaced by their defaults. *)
Theorem runSimulation_falsy_defaults
  (baseOEE : OEE.t) (line : string)
  (operators shiftLength cycleTimeAdjustment : option number) :
  (zero <? OEE.idealCycleTime baseOEE) = true ->
  runSimulation (Some baseOEE)
    (mkParams line operators shiftLength (Some zero))
  = runSimulation (Some baseOEE)
      (mkParams line operators shiftLength (Some (of_Z 1)))
  /\ runSimulation (Some baseOEE)
       (mkParams line operators (Some zero) cycleTimeAdjustment)
     = runSimulation (Some baseOEE)
         (mkParams line operators (Some (of_Z 8)) cycleTimeAdjustment)
  /\ exists r, runSimulation (Some baseOEE)
                 (mkParams line operators shiftLength (Some zero)) = Ok r.
Proof.
  intros Hideal. split; [|split].
  - by apply runSimulation_ext.
  - by apply runSimulation_ext.
  - rewrite runSimulation_pos; [by eexists | done |].
    change (cycleTimeMultiplier _) with one. done.
Qed.

Lemma runSimulation_falsy_defaults_witness :
  (zero <? OEE.idealCycleTime Samples.baseline) = true
  /\ runSimulation (Some Samples.baseline)
       (mkParams "L1" None (Some (of_Z 8)) (Some zero))
     = runSimulation (Some Samples.baseline)
         (mkParams "L1" None (Some (of_Z 8)) (Some (of_Z 1)))
  /\ runSimulation (Some Samples.baseline)
       (mkParams "L1" None (Some zero) (Some (of_Z 1)))
     = runSimulation (Some Samples.baseline)
         (mkParams "L1" None (Some (of_Z 8)) (Some (of_Z 1))).
Proof.
  split; [reflexivity|].
  destruct (runSimulation_falsy_defaults Samples.baseline "L1" None
              (Some (of_Z 8)) (Some (of_Z 1)) eq_refl) as (H1 & _ & _).
  destruct (runSimulation_falsy_defaults Samples.baseline "L1" None
              (Some (of_Z 8)) (Some (of_Z 1)) eq_refl) as (_ & H2 & _).
  split; [exact H1 | exact H2].
Defined.

End SimulatorProofs.

(** ** The metric calculator *)

Module CalculatorProofs.
Import NumberFacts CalculationService.
Local Open Scope js_scope.



(** On jobs that all carry both timestamps the code computes the mean. *)
Lemma calculateLeadTime_all_timed jobs :
  Forall (fun job => Spec.has_both_timestamps job = true) jobs ->
  calculateLeadTime jobs = Spec.leadTimeMinutes jobs.
Proof.
  intros Hall. unfold calculateLeadTime, Spec.leadTimeMinutes.
  assert (E : List.filter Spec.has_both_timestamps jobs = jobs).
  { induction Hall as [|job jobs Hjob _ IH]; [done|].
    simpl. by rewrite Hjob, IH. }
  by rewrite E.
Qed.

(** C4, the code at the failing input. Of two completed jobs, one ran for
    two minutes and the other has no end time: the mean over the jobs with
    both timestamps is 2 minutes, the code divides the same total by both
    jobs and returns 1. *)
Lemma calculateLeadTime_divides_by_all_jobs :
  calculateLeadTime [Samples.job (Some 0) (Some 120000);
                     Samples.job (Some 0) None] = of_Z 1
  /\ Spec.leadTimeMinutes [Samples.job (Some 0) (Some 120000);
                           Samples.job (Some 0) None] = of_Z 2.
Proof. split; number_eq. Qed.

End CalculatorProofs.

(** ** The insight engine: per-record checks *)

Module InsightProofs.
Import NumberFacts ListFacts AIService.
Local Open Scope js_scope.

Lemma fold_left_map_add {A : Type} (f : A -> number) l acc :
  fold_left (fun sum x => sum + f x) l acc = fold_left add (map f l) acc.
Proof. revert acc. induction l as [|x l IH]; intros acc; simpl; auto. Qed.

Lemma avgCycleTime_mean oeeData :
  avgCycleTime oeeData = Spec.mean (map OEE.actualCycleTime oeeData).
Proof.
  unfold avgCycleTime, Spec.mean.
  by rewrite fold_left_map_add, reduce_sum, length_map.
Qed.

End InsightProofs.

(** ** The insight engine: enrichment is best effort *)

Module EnrichmentProofs.
Import AIService.

Lemma enhanceWithExternalAI_total post insights :
  exists out, enhanceWithExternalAI post insights = Ok out.
Proof.
  unfold enhanceWithExternalAI.
  destruct post as [[| |[enhanced|]]|e]; simpl; eauto.
Qed.

Lemma enhanceWithExternalAI_fallback post insights :
  Spec.enrichment_failed post ->
  enhanceWithExternalAI post insights = Ok insights.
Proof.
  unfold enhanceWithExternalAI.
  by destruct post as [[| |[enhanced|]]|e].
Qed.

(** C7. [generateInsights] always returns a list, whatever the queries and
    the enrichment call do.  When the three queries succeed and the
    enrichment call fails (rejected request, non-2xx status, body without
    the expected field), the result is the concatenation of the three
    checks, unchanged; [enhanceWithExternalAI] itself returns its argument
    on every such failure. *)
Theorem generateInsights_best_effort :
  (forall cfg w, exists insights, generateInsights cfg w = Ok insights)
  /\ (forall post insights,
        Spec.enrichment_failed post ->
        enhanceWithExternalAI post insights = Ok insights)
  /\ (forall cfg oeeData scrapData oeeData' post,
        Spec.enrichment_failed post ->
        generateInsights cfg
          {| cycleTimeQuery := Ok oeeData; scrapQuery := Ok scrapData;
             downtimeQuery := Ok oeeData'; enrichment := post |}
        = Ok (detectCycleTimeAnomalies oeeData
              ++ detectScrapPatterns scrapData
              ++ detectDowntimePatterns oeeData')).
Proof.
  split; [|split].
  - intros cfg w. unfold generateInsights.
    destruct (cycleTimeQuery w) as [oeeData|]; [|by eexists].
    destruct (scrapQuery w) as [scrapData|]; [|by eexists].
    destruct (downtimeQuery w) as [oeeData'|]; [|by eexists].
    destruct (_ && _); [|by eexists].
    match goal with
    | |- context [enhanceWithExternalAI ?post ?insights] =>
        destruct (enhanceWithExternalAI_total post insights) as [out ->]
    end.
    by eexists.
  - apply enhanceWithExternalAI_fallback.
  - intros cfg oeeData scrapData oeeData' post Hfail.
    unfold generateInsights. simpl.
    rewrite enhanceWithExternalAI_fallback by done. simpl.
    rewrite <- app_assoc. by destruct (_ && _).
Qed.

Lemma generateInsights_best_effort_witness :
  Spec.enrichment_failed (Throw (AxiosError (Some 503)))
  /\ generateInsights
       {| aiServiceUrl := Some "http://ai"; aiApiKey := Some "key" |}
       {| cycleTimeQuery := Ok Samples.ten_records;
          scrapQuery := Ok [];
          downtimeQuery := Ok [];
          enrichment := Throw (AxiosError (Some 503)) |}
     = Ok (detectCycleTimeAnomalies Samples.ten_records
           ++ detectScrapPatterns [] ++ detectDowntimePatterns []).
Proof.
  split; [exact I|].
  apply (proj2 (proj2 generateInsights_best_effort)). exact I.
Defined.

End EnrichmentProofs.

(** ** The notification hub *)

Module NotificationProofs.
Import NotificationService.

Lemma set_read_read n : Notification.read n = true -> Notification.set_read n = n.
Proof. destruct n. simpl. by intros ->. Qed.

Lemma with_notifications_same st :
  with_notifications st (notifications st) = st.
Proof. by destruct st. Qed.

(** [find] followed by the assignment is [Spec.mark_first]. *)
Lemma find_then_set nid (mailbox : list Notification.t) :
  match list_find (fun n => Notification.id n = nid) mailbox with
  | Some (i, n) => <[i := Notification.set_read n]> mailbox
  | None => mailbox
  end = Spec.mark_first nid mailbox.
Proof.
  induction mailbox as [|n mailbox IH]; [done|].
  cbn [list_find Spec.mark_first].
  destruct (String.eqb_spec (Notification.id n) nid) as [E|E].
  - by rewrite decide_True.
  - rewrite decide_False by done. rewrite <- IH.
    by destruct (list_find _ mailbox) as [[i m]|].
Qed.

Lemma markAsRead_mailbox userId nid st :
  markAsRead userId nid st
  = match notifications st !! userId with
    | Some mailbox =>
        with_notifications st
          (<[userId := Spec.mark_first nid mailbox]> (notifications st))
    | None => st
    end.
Proof.
  unfold markAsRead.
  destruct (notifications st !! userId) as [mailbox|] eqn:Hu; [|done].
  rewrite <- find_then_set.
  destruct (list_find _ mailbox) as [[i n]|]; [done|].
  by rewrite insert_id, with_notifications_same.
Qed.

Lemma markAsRead_Some userId nid st mailbox :
  notifications st !! userId = Some mailbox ->
  markAsRead userId nid st
  = with_notifications st
      (<[userId := Spec.mark_first nid mailbox]> (notifications st)).
Proof. intros H. by rewrite markAsRead_mailbox, H. Qed.

Lemma markAsRead_None userId nid st :
  notifications st !! userId = None -> markAsRead userId nid st = st.
Proof. intros H. by rewrite markAsRead_mailbox, H. Qed.

Lemma markAsRead_unchanged userId nid st mailbox :
  notifications st !! userId = Some mailbox ->
  Spec.mark_first nid mailbox = mailbox ->
  markAsRead userId nid st = st.
Proof.
  intros Hu Hsame. rewrite (markAsRead_Some _ _ _ _ Hu), Hsame.
  by rewrite insert_id, with_notifications_same.
Qed.

Lemma mark_first_absent nid mailbox :
  Forall (fun n => Notification.id n <> nid) mailbox ->
  Spec.mark_first nid mailbox = mailbox.
Proof.
  induction 1 as [|n mailbox Hn _ IH]; [done|].
  simpl. destruct (String.eqb_spec (Notification.id n) nid); [done|].
  by rewrite IH.
Qed.

Lemma mark_first_already_read nid mailbox :
  Forall (fun n => Notification.id n = nid -> Notification.read n = true)
         mailbox ->
  Spec.mark_first nid mailbox = mailbox.
Proof.
  induction 1 as [|n mailbox Hn _ IH]; [done|].
  simpl. destruct (String.eqb_spec (Notification.id n) nid) as [E|E].
  - by rewrite set_read_read by auto.
  - by rewrite IH.
Qed.

Lemma mark_first_idemp nid mailbox :
  Spec.mark_first nid (Spec.mark_first nid mailbox)
  = Spec.mark_first nid mailbox.
Proof.
  induction mailbox as [|n mailbox IH]; [done|].
  simpl. destruct (String.eqb (Notification.id n) nid) eqn:E; simpl.
  - by rewrite E.
  - by rewrite E, IH.
Qed.

(** The first notification with the id is the one that is marked. *)
Lemma mark_first_found nid before found after :
  Forall (fun n => Notification.id n <> nid) before ->
  Notification.id found = nid ->
  Spec.mark_first nid (before ++ found :: after)
  = before ++ Notification.set_read found :: after.
Proof.
  intros Hbefore Hfound.
  induction Hbefore as [|n before Hn _ IH]; simpl.
  - by rewrite Hfound, String.eqb_refl.
  - destruct (String.eqb_spec (Notification.id n) nid); [done|].
    by rewrite IH.
Qed.

Lemma mark_first_flag_only nid mailbox :
  Forall2 (Spec.read_flag_only nid) mailbox (Spec.mark_first nid mailbox).
Proof.
  induction mailbox as [|n mailbox IH]; [constructor|].
  simpl. destruct (String.eqb_spec (Notification.id n) nid) as [E|E].
  - constructor; [by right|].
    apply Forall2_same_length_lookup_2; [done|]. intros i x y Hx Hy.
    left. congruence.
  - constructor; [by left | done].
Qed.

(** C8. [markAsRead] is a total function of the hub state.  It leaves the
    state as it is when the user has no mailbox, when no notification of the
    mailbox has the id, and when the notifications with the id are already
    read.  In every case it touches neither the socket, nor what was
    emitted, nor another user's mailbox, and in the user's mailbox each
    notification is unchanged or is one with that id whose read flag is now
    true.  When the mailbox holds a notification with the id, the first one
    that does has its read flag true afterwards and the rest of the mailbox
    is as before.  Calling it a second time changes nothing more. *)
Theorem markAsRead_noop_idempotent (userId nid : string) (st : state) :
  (notifications st !! userId = None -> markAsRead userId nid st = st)
  /\ (forall mailbox,
        notifications st !! userId = Some mailbox ->
        Forall (fun n => Notification.id n <> nid) mailbox ->
        markAsRead userId nid st = st)
  /\ (forall mailbox,
        notifications st !! userId = Some mailbox ->
        Forall (fun n => Notification.id n = nid -> Notification.read n = true)
               mailbox ->
        markAsRead userId nid st = st)
  /\ (io (markAsRead userId nid st) = io st
      /\ emitted (markAsRead userId nid st) = emitted st
      /\ (forall other, other <> userId ->
            notifications (markAsRead userId nid st) !! other
            = notifications st !! other)
      /\ (forall mailbox,
            notifications st !! userId = Some mailbox ->
            exists mailbox',
              notifications (markAsRead userId nid st) !! userId
              = Some mailbox'
              /\ Forall2 (Spec.read_flag_only nid) mailbox mailbox'))
  /\ (forall before found after,
        notifications st !! userId = Some (before ++ found :: after) ->
        Forall (fun n => Notification.id n <> nid) before ->
        Notification.id found = nid ->
        notifications (markAsRead userId nid st) !! userId
        = Some (before ++ Notification.set_read found :: after)
        /\ Notification.read (Notification.set_read found) = true)
  /\ markAsRead userId nid (markAsRead userId nid st)
     = markAsRead userId nid st.
Proof.
  destruct (notifications st !! userId) as [mailbox|] eqn:Hu.
  - pose proof (markAsRead_Some _ nid _ _ Hu) as E.
    split; [done|]. split; [|split; [|split; [|split]]].
    + intros ? [= <-] Habs.
      by apply (markAsRead_unchanged _ _ _ mailbox), mark_first_absent.
    + intros ? [= <-] Hread.
      by apply (markAsRead_unchanged _ _ _ mailbox), mark_first_already_read.
    + rewrite E. repeat split; try done.
      * intros other Hother. simpl. by rewrite lookup_insert_ne.
      * intros ? [= <-]. exists (Spec.mark_first nid mailbox).
        simpl. rewrite lookup_insert_eq. split; [done|].
        apply mark_first_flag_only.
    + intros before found after [= ->] Hbefore Hfound. rewrite E. simpl.
      by rewrite lookup_insert_eq, mark_first_found.
    + rewrite E at 1.
      rewrite (markAsRead_Some _ nid _ (Spec.mark_first nid mailbox))
        by (simpl; apply lookup_insert_eq).
      rewrite E. unfold with_notifications. simpl.
      by rewrite insert_insert_eq, mark_first_idemp.
  - pose proof (markAsRead_None _ nid _ Hu) as E.
    rewrite !E. repeat split; done.
Qed.

Lemma markAsRead_noop_idempotent_witness :
  (NotificationService.notifications Samples.hub !! "u2" = None
   /\ markAsRead "u2" "n1" Samples.hub = Samples.hub)
  /\ (NotificationService.notifications Samples.hub !! "u1"
      = Some [Samples.notice "n1" true; Samples.notice "n2" false]
      /\ markAsRead "u1" "n9" Samples.hub = Samples.hub
      /\ markAsRead "u1" "n1" Samples.hub = Samples.hub
      /\ NotificationService.notifications
           (markAsRead "u1" "n2" Samples.hub) !! "u1"
         = Some [Samples.notice "n1" true; Samples.notice "n2" true]).
Proof.
  split.
  - split; [reflexivity|].
    apply (proj1 (markAsRead_noop_idempotent "u2" "n1" Samples.hub)).
    reflexivity.
  - split; [reflexivity|]. split.
    + apply (proj1 (proj2 (markAsRead_noop_idempotent "u1" "n9" Samples.hub))
               [Samples.notice "n1" true; Samples.notice "n2" false]);
        [reflexivity|].
      repeat constructor; simpl; discriminate.
    + split.
      * apply (proj1 (proj2 (proj2
                 (markAsRead_noop_idempotent "u1" "n1" Samples.hub)))
                 [Samples.notice "n1" true; Samples.notice "n2" false]);
          [reflexivity|].
        repeat constructor; simpl; try reflexivity; discriminate.
      * apply (proj1 (proj1 (proj2 (proj2 (proj2 (proj2
                 (markAsRead_noop_idempotent "u1" "n2" Samples.hub)))))
                 [Samples.notice "n1" true] (Samples.notice "n2" false) []
                 eq_refl
                 ltac:(repeat constructor; simpl; discriminate)
                 eq_refl)).
Defined.

End NotificationProofs.

(** ** Order and arithmetic on finite numbers *)

Module OrderFacts.
Import NumberFacts.
Local Open Scope js_scope.

Lemma leb_Fin (a b : Qc) : (Fin a <=? Fin b) = true <-> (a <= b)%Qc.
Proof.
  unfold leb. cbn. rewrite orb_true_iff, Qc_ltb_lt, Qc_eqb_eq. split.
  - intros [H| ->]; [by apply Qclt_le_weak | apply Qcle_refl].
  - intros H. destruct (Qcle_lt_or_eq _ _ H); auto.
Qed.

Lemma ltb_Fin (a b : Qc) : (Fin a <? Fin b) = true <-> (a < b)%Qc.
Proof. apply Qc_ltb_lt. Qed.

Lemma ltb_Fin_false (a b : Qc) : (Fin a <? Fin b) = false <-> (b <= a)%Qc.
Proof.
  split.
  - intros H. apply Qcnot_lt_le. intros Hlt. apply ltb_Fin in Hlt. congruence.
  - intros H. destruct (Fin a <? Fin b) eqn:E; [|done].
    apply ltb_Fin in E. by destruct (Qcle_not_lt _ _ H).
Qed.


Lemma sub_Fin (a b : Qc) : Fin a - Fin b = Fin (a - b)%Qc.
Proof. done. Qed.

Lemma div_Fin (a b : Qc) : b <> 0%Qc -> Fin a / Fin b = Fin (a / b)%Qc.
Proof. intros H. cbn. by apply Qc_eqb_neq in H as ->. Qed.

(** Reading a canonical rational as a rational. *)
Lemma this_plus (a b : Qc) : (this (a + b)%Qc == this a + this b)%Q.
Proof. apply Qred_correct. Qed.

Lemma this_mult (a b : Qc) : (this (a * b)%Qc == this a * this b)%Q.
Proof. apply Qred_correct. Qed.

Lemma this_opp (a : Qc) : (this (- a)%Qc == - this a)%Q.
Proof. apply Qred_correct. Qed.

Lemma this_minus (a b : Qc) : (this (a - b)%Qc == this a - this b)%Q.
Proof. unfold Qcminus. rewrite this_plus, this_opp. reflexivity. Qed.

Lemma this_inv (a : Qc) : (this (/ a)%Qc == / this a)%Q.
Proof. apply Qred_correct. Qed.

Lemma this_div (a b : Qc) : (this (a / b)%Qc == this a / this b)%Q.
Proof. unfold Qcdiv. rewrite this_mult, this_inv. reflexivity. Qed.

Lemma this_Q2Qc (q : Q) : (this (Q2Qc q) == q)%Q.
Proof. apply Qred_correct. Qed.

Lemma Qc_pos_neq (a : Qc) : (0 < a)%Qc -> a <> 0%Qc.
Proof. intros H ->. by apply Qclt_not_eq in H. Qed.

Lemma of_nat_pos (n : nat) :
  (0 < n)%nat -> (0 < Q2Qc (inject_Z (Z.of_nat n)))%Qc.
Proof.
  intros H. unfold Qclt. rewrite !this_Q2Qc.
  change (inject_Z 0 < inject_Z (Z.of_nat n))%Q.
  rewrite <- Zlt_Qlt. lia.
Qed.

End OrderFacts.

(** Turns a goal or hypotheses on canonical rationals into rationals. *)
Ltac qc_to_q :=
  unfold Qclt, Qcle in *;
  repeat (rewrite ?OrderFacts.this_mult, ?OrderFacts.this_div,
            ?OrderFacts.this_minus, ?OrderFacts.this_plus,
            ?OrderFacts.this_opp, ?OrderFacts.this_inv,
            ?OrderFacts.this_Q2Qc in * );
  change (this 0%Qc) with 0%Q in *;
  change (this 1%Qc) with 1%Q in *;
  unfold inject_Z in *.

(** Names the reciprocal of the positive rational [p], so that [nra] sees a
    variable [y] with [p * y == 1]. *)
Ltac name_reciprocal p Hp :=
  let y := fresh "y" in
  let Hy := fresh "Hy" in
  let Hpy := fresh "Hpy" in
  assert (Hy : (0 < / p)%Q) by (apply Qinv_lt_0_compat; exact Hp);
  assert (Hpy : (p * / p == 1)%Q) by (apply Qmult_inv_r; lra);
  unfold Qdiv in *; set (y := (/ p)%Q) in *; clearbody y.

(** ** More on the metric calculator *)

Module CalculatorExtras.
Import NumberFacts OrderFacts CalculationService.
Local Open Scope js_scope.

(** Availability is 0 without planned time, 100 without downtime, and stays
    between 0 and 100 while 0 <= downtime <= plannedTime; nothing clamps it:
    downtime above the planned time gives a negative percentage. *)
Theorem calculateAvailability_range (plannedTime downtime : number) :
  calculateAvailability zero downtime = zero
  /\ (is_finite plannedTime = true ->
      (zero <? plannedTime) = true ->
      calculateAvailability plannedTime zero = of_Z 100
      /\ ((zero <=? downtime) = true ->
          (downtime <=? plannedTime) = true ->
          (zero <=? calculateAvailability plannedTime downtime) = true
          /\ (calculateAvailability plannedTime downtime <=? of_Z 100) = true)
      /\ (is_finite downtime = true ->
          (plannedTime <? downtime) = true ->
          (calculateAvailability plannedTime downtime <? zero) = true)).
Proof.
  split; [done|].
  destruct plannedTime as [p| | |]; try done. intros _ Hp.
  apply ltb_Fin in Hp.
  assert (Hp0 : p <> 0%Qc) by (by apply Qc_pos_neq).
  assert (Hguard : (Fin p === zero) = false) by (by apply Qc_eqb_neq).
  unfold calculateAvailability. rewrite Hguard.
  split; [|split].
  - unfold zero. rewrite sub_Fin, div_Fin by done. unfold of_Z. cbn.
    f_equal. apply Qc_is_canon. qc_to_q.
    name_reciprocal (this p) Hp. nra.
  - intros Hd Hdp.
    destruct downtime as [d| | |]; try done.
    apply leb_Fin in Hd, Hdp.
    rewrite sub_Fin, div_Fin by done. unfold of_Z, zero. cbn [mul].
    rewrite !leb_Fin. qc_to_q.
    name_reciprocal (this p) Hp. split; nra.
  - destruct downtime as [d| | |]; try done. intros _ Hdp.
    apply ltb_Fin in Hdp.
    rewrite sub_Fin, div_Fin by done. unfold of_Z, zero. cbn [mul].
    rewrite ltb_Fin. qc_to_q.
    name_reciprocal (this p) Hp. nra.
Qed.

Lemma calculateAvailability_range_witness :
  is_finite (of_Z 480) = true
  /\ (zero <? of_Z 480) = true
  /\ (zero <=? of_Z 50) = true
  /\ (of_Z 50 <=? of_Z 480) = true
  /\ (zero <=? calculateAvailability (of_Z 480) (of_Z 50)) = true
  /\ (calculateAvailability (of_Z 480) (of_Z 50) <=? of_Z 100) = true.
Proof.
  repeat (split; [reflexivity|]).
  apply (proj1 (proj2 (proj2 (calculateAvailability_range (of_Z 480) (of_Z 50))
                         eq_refl eq_refl)));
    reflexivity.
Defined.

(** Quality is 0 without units and stays between 0 and 100 while
    0 <= goodUnits <= totalUnits. *)
Theorem calculateQuality_range (goodUnits totalUnits : number) :
  calculateQuality goodUnits zero = zero
  /\ (is_finite totalUnits = true ->
      (zero <? totalUnits) = true ->
      (zero <=? goodUnits) = true ->
      (goodUnits <=? totalUnits) = true ->
      (zero <=? calculateQuality goodUnits totalUnits) = true
      /\ (calculateQuality goodUnits totalUnits <=? of_Z 100) = true).
Proof.
  split; [done|].
  destruct totalUnits as [t| | |]; try done. intros _ Ht Hg Hgt.
  destruct goodUnits as [g| | |]; try done.
  apply ltb_Fin in Ht. apply leb_Fin in Hg, Hgt.
  assert (Ht0 : t <> 0%Qc) by (by apply Qc_pos_neq).
  assert (Hguard : (Fin t === zero) = false) by (by apply Qc_eqb_neq).
  unfold calculateQuality. rewrite Hguard, div_Fin by done.
  unfold of_Z, zero. cbn [mul]. rewrite !leb_Fin. qc_to_q.
  name_reciprocal (this t) Ht. split; nra.
Qed.

Lemma calculateQuality_range_witness :
  is_finite (of_Z 200) = true
  /\ (zero <? of_Z 200) = true
  /\ (zero <=? of_Z 190) = true
  /\ (of_Z 190 <=? of_Z 200) = true
  /\ (zero <=? calculateQuality (of_Z 190) (of_Z 200)) = true
  /\ (calculateQuality (of_Z 190) (of_Z 200) <=? of_Z 100) = true.
Proof.
  repeat (split; [reflexivity|]).
  apply (proj2 (calculateQuality_range (of_Z 190) (of_Z 200)));
    reflexivity.
Defined.

(** The composite OEE of three percentages between 0 and 100 is again
    between 0 and 100. *)
Theorem calculateOEE_range (availability performance quality : number) :
  (zero <=? availability) = true -> (availability <=? of_Z 100) = true ->
  (zero <=? performance) = true -> (performance <=? of_Z 100) = true ->
  (zero <=? quality) = true -> (quality <=? of_Z 100) = true ->
  (zero <=? calculateOEE availability performance quality) = true
  /\ (calculateOEE availability performance quality <=? of_Z 100) = true.
Proof.
  destruct availability as [a| | |]; try done.
  destruct performance as [p| | |]; try done.
  destruct quality as [q| | |]; try done.
  unfold of_Z, zero. rewrite !leb_Fin. intros Ha Ha' Hp Hp' Hq Hq'.
  unfold calculateOEE, of_Z. cbn [mul].
  rewrite div_Fin by (apply Qc_pos_neq; by apply Qc_ltb_lt).
  rewrite !leb_Fin. qc_to_q.
  assert (Hap : (0 <= this a * this p)%Q) by nra.
  assert (Hap' : (this a * this p <= 10000)%Q) by nra.
  unfold Qdiv.
  assert (Hinv : (/ (10000 # 1) == 1 # 10000)%Q) by reflexivity.
  rewrite Hinv. split; nra.
Qed.

Lemma calculateOEE_range_witness :
  (zero <=? calculateOEE (of_Z 80) (of_Z 90) (of_Z 95)) = true
  /\ (calculateOEE (of_Z 80) (of_Z 90) (of_Z 95) <=? of_Z 100) = true.
Proof.
  apply (calculateOEE_range (of_Z 80) (of_Z 90) (of_Z 95)); reflexivity.
Defined.

Lemma reduce_field_sum {A : Type} (f : A -> number) (l : list A) :
  fold_left (fun sum x => sum + f x) l zero = Spec.sum (map f l).
Proof. by rewrite InsightProofs.fold_left_map_add, reduce_sum. Qed.

Lemma sum_finite (l : list number) :
  Forall (fun x => is_finite x = true) l -> is_finite (Spec.sum l) = true.
Proof.
  induction 1 as [|x l Hx _ IH]; [done|].
  cbn [Spec.sum foldr]. fold (Spec.sum l).
  by destruct x, (Spec.sum l).
Qed.

Lemma zero_div_mul (u c : Qc) : u <> 0%Qc -> zero / Fin u * Fin c = zero.
Proof.
  intros Hu. unfold zero. rewrite div_Fin by done. cbn [mul]. f_equal.
  unfold Qcdiv. by rewrite !Qcmult_0_l.
Qed.

(** The scrap percentage is 0 when no production record is found, whatever
    the defect events, and 0 when no defect event is found and the total
    units are finite: the zero test on the total units is the only guard. *)
Theorem calculateScrapPercentage_empty :
  (forall scrapData, calculateScrapPercentage scrapData [] = zero)
  /\ (forall oeeData,
        Forall (fun r => is_finite (OEE.totalUnits r) = true) oeeData ->
        calculateScrapPercentage [] oeeData = zero).
Proof.
  split; [done|]. intros oeeData Hfin.
  unfold calculateScrapPercentage. rewrite reduce_field_sum. cbn [fold_left].
  assert (Hu : is_finite (Spec.sum (map OEE.totalUnits oeeData)) = true).
  { apply sum_finite. by apply Forall_map. }
  destruct (Spec.sum (map OEE.totalUnits oeeData)) as [u| | |]; try done.
  destruct (Fin u === zero) eqn:E; [done|].
  apply zero_div_mul. by apply Qc_eqb_neq.
Qed.

Lemma calculateScrapPercentage_empty_witness :
  Forall (fun r => is_finite (OEE.totalUnits r) = true) Samples.ten_records
  /\ calculateScrapPercentage [] Samples.ten_records = zero.
Proof.
  assert (H : Forall (fun r => is_finite (OEE.totalUnits r) = true)
                     Samples.ten_records) by (repeat constructor).
  split; [exact H|].
  exact (proj2 calculateScrapPercentage_empty Samples.ten_records H).
Defined.




End CalculatorExtras.

(** ** More on the insight engine *)

Module EngineExtras.
Import NumberFacts OrderFacts ListFacts AIService.
Local Open Scope js_scope.

Lemma of_nat_neq_0 (n : nat) :
  (0 < n)%nat -> Q2Qc (inject_Z (Z.of_nat n)) <> 0%Qc.
Proof. intros H. by apply Qc_pos_neq, of_nat_pos. Qed.

Lemma untracked_fold metric l acc :
  metric = Prediction.leadTime \/ metric = Prediction.scrap ->
  fold_left (metric_step metric) l acc = acc.
Proof.
  intros Hm. induction l as [|r l IH]; [done|].
  cbn [fold_left]. by destruct Hm as [-> | ->].
Qed.

(** For the metrics leadTime and scrap the reduce adds nothing: whatever
    the records say, the prediction made has current value 0 and predicted
    value 0. *)
Theorem generatePredictions_untracked
  (metric : Prediction.metric_t) (days : number) (historicalData : list OEE.t) :
  metric = Prediction.leadTime \/ metric = Prediction.scrap ->
  Forall (fun p => Prediction.currentValue p = zero
                   /\ Prediction.predictedValue p = zero)
         (generatePredictions metric days historicalData).
Proof.
  intros Hm. unfold generatePredictions.
  destruct historicalData as [|r l]; [constructor|].
  constructor; [|constructor].
  cbn [Prediction.currentValue Prediction.predictedValue].
  rewrite untracked_fold by done.
  assert (Hn : Q2Qc (inject_Z (Z.of_nat (Nat.min 7 (length (r :: l))))) <> 0%Qc).
  { apply of_nat_neq_0. simpl. lia. }
  unfold of_Z, zero. rewrite div_Fin by done.
  unfold Qcdiv. rewrite Qcmult_0_l. split; [done|].
  unfold of_Q. cbn [mul]. by rewrite Qcmult_0_l.
Qed.

Lemma generatePredictions_untracked_witness :
  (Prediction.scrap = Prediction.leadTime
   \/ Prediction.scrap = Prediction.scrap)
  /\ Forall (fun p => Prediction.currentValue p = zero
                      /\ Prediction.predictedValue p = zero)
            (generatePredictions Prediction.scrap (of_Z 30)
               Samples.ten_records).
Proof.
  split; [by right|].
  apply generatePredictions_untracked. by right.
Defined.



(** The cycle-time check never emits more than 7 insights. *)
Theorem detectCycleTimeAnomalies_at_most_7 (oeeData : list OEE.t) :
  (length (detectCycleTimeAnomalies oeeData) <= 7)%nat.
Proof.
  unfold detectCycleTimeAnomalies.
  destruct (length oeeData <? 10)%nat; [simpl; lia|].
  rewrite (fold_left_push
             (fun record =>
                OEE.actualCycleTime record >? avgCycleTime oeeData * of_Q 1.2)
             (cycleTimeInsight (avgCycleTime oeeData))).
  rewrite app_nil_l, length_map.
  etransitivity; [apply List.filter_length_le|].
  rewrite length_take. lia.
Qed.

Lemma of_nat_succ (n : nat) :
  Q2Qc (inject_Z (Z.of_nat (S n))) = (Q2Qc (inject_Z (Z.of_nat n)) + 1)%Qc.
Proof.
  apply Qc_is_canon. rewrite this_plus, !this_Q2Qc.
  rewrite Nat2Z.inj_succ. unfold Z.succ. by rewrite inject_Z_plus.
Qed.

Lemma sum_constant (c : Qc) (l : list number) :
  Forall (fun x => x = Fin c) l ->
  Spec.sum l = Fin (Q2Qc (inject_Z (Z.of_nat (length l))) * c)%Qc.
Proof.
  induction 1 as [|x l -> _ IH].
  - cbn. f_equal. by rewrite Qcmult_0_l.
  - cbn [Spec.sum foldr length]. fold (Spec.sum l). rewrite IH, of_nat_succ.
    cbn [add]. f_equal. ring.
Qed.

Lemma filter_none {A : Type} (p : A -> bool) (l : list A) :
  Forall (fun x => p x = false) l -> List.filter p l = [].
Proof.
  induction 1 as [|x l Hx _ IH]; [done|]. cbn [List.filter]. by rewrite Hx.
Qed.

(** A window in which every record has the same non-negative
    actualCycleTime raises no cycle-time anomaly. *)
Theorem detectCycleTimeAnomalies_steady (c : Qc) (oeeData : list OEE.t) :
  (0 <= c)%Qc ->
  Forall (fun r => OEE.actualCycleTime r = Fin c) oeeData ->
  detectCycleTimeAnomalies oeeData = [].
Proof.
  intros Hc Hall. unfold detectCycleTimeAnomalies.
  destruct (length oeeData <? 10)%nat eqn:Hlen; [done|].
  apply Nat.ltb_ge in Hlen.
  rewrite (fold_left_push
             (fun record =>
                OEE.actualCycleTime record >? avgCycleTime oeeData * of_Q 1.2)
             (cycleTimeInsight (avgCycleTime oeeData))).
  rewrite filter_none; [done|].
  assert (Hn : Q2Qc (inject_Z (Z.of_nat (length oeeData))) <> 0%Qc)
    by (apply of_nat_neq_0; lia).
  assert (Havg : avgCycleTime oeeData = Fin c).
  { rewrite InsightProofs.avgCycleTime_mean. unfold Spec.mean.
    rewrite (sum_constant c) by (by apply Forall_map).
    rewrite !length_map. unfold of_Z. rewrite div_Fin by done.
    f_equal. field. done. }
  rewrite Havg. apply Forall_take.
  eapply Forall_impl; [|exact Hall]. intros r Hr. cbn beta. rewrite Hr.
  unfold gtb, of_Q. cbn [mul]. apply ltb_Fin_false. qc_to_q. lra.
Qed.

Lemma detectCycleTimeAnomalies_steady_witness :
  (0 <= Q2Qc 10)%Qc
  /\ Forall (fun r => OEE.actualCycleTime r = Fin (Q2Qc 10))
            (replicate 12 Samples.steady_record)
  /\ detectCycleTimeAnomalies (replicate 12 Samples.steady_record) = [].
Proof.
  assert (Hc : (0 <= Q2Qc 10)%Qc) by (by apply Qcle_alt).
  assert (H : Forall (fun r => OEE.actualCycleTime r = Fin (Q2Qc 10))
                     (replicate 12 Samples.steady_record)).
  { repeat constructor. }
  split; [exact Hc|]. split; [exact H|].
  exact (detectCycleTimeAnomalies_steady _ _ Hc H).
Defined.

Lemma pushed_Forall {A B : Type} (P : B -> Prop) (p : A -> bool) (f : A -> B)
  (l : list A) :
  (forall x, P (f x)) ->
  Forall P (fold_left (fun out x => if p x then out ++ [f x] else out) l []).
Proof.
  intros H. rewrite fold_left_push, app_nil_l.
  apply Forall_map, Forall_forall. intros x _. apply H.
Qed.

Lemma detectCycleTimeAnomalies_Forall (P : AIInsight.t -> Prop) oeeData :
  (forall avg r, P (cycleTimeInsight avg r)) ->
  Forall P (detectCycleTimeAnomalies oeeData).
Proof.
  intros HP. unfold detectCycleTimeAnomalies.
  destruct (length oeeData <? 10)%nat; [constructor|].
  by apply pushed_Forall.
Qed.

Lemma detectScrapPatterns_Forall (P : AIInsight.t -> Prop) scrapData :
  (forall top, P (scrapInsight top)) ->
  Forall P (detectScrapPatterns scrapData).
Proof.
  intros HP. unfold detectScrapPatterns.
  destruct (Nat.eqb _ _); [constructor|].
  destruct (head _) as [top|]; [|constructor].
  destruct (_ >? _); repeat constructor. apply HP.
Qed.

Lemma detectDowntimePatterns_Forall (P : AIInsight.t -> Prop) oeeData :
  (forall r, P (downtimeInsight r)) ->
  Forall P (detectDowntimePatterns oeeData).
Proof.
  intros HP. unfold detectDowntimePatterns.
  destruct (Nat.eqb _ _); [constructor|]. by apply pushed_Forall.
Qed.

Lemma engine_output_Forall (P : AIInsight.t -> Prop) oeeData scrapData oeeData' :
  (forall avg r, P (cycleTimeInsight avg r)) ->
  (forall top, P (scrapInsight top)) ->
  (forall r, P (downtimeInsight r)) ->
  Forall P (Terms.engine_output oeeData scrapData oeeData').
Proof.
  intros H1 H2 H3. unfold Terms.engine_output. rewrite !Forall_app.
  split; [|split].
  - by apply detectCycleTimeAnomalies_Forall.
  - by apply detectScrapPatterns_Forall.
  - by apply detectDowntimePatterns_Forall.
Qed.

(** Every insight of the three checks is actionable, carries three action
    items and has priority high or critical; the cycle-time check only
    emits anomalies, the scrap check opportunities and the downtime check
    alerts. *)
Theorem engine_insights_shape
  (oeeData : list OEE.t) (scrapData : list Scrap.t) (oeeData' : list OEE.t) :
  Forall (fun insight =>
            (AIInsight.priority insight = AIInsight.high
             \/ AIInsight.priority insight = AIInsight.critical)
            /\ AIInsight.actionable insight = true
            /\ exists items, AIInsight.actionItems insight = Some items
                             /\ length items = 3%nat)
         (Terms.engine_output oeeData scrapData oeeData')
  /\ Forall (fun insight => AIInsight.type insight = AIInsight.anomaly)
            (detectCycleTimeAnomalies oeeData)
  /\ Forall (fun insight => AIInsight.type insight = AIInsight.opportunity)
            (detectScrapPatterns scrapData)
  /\ Forall (fun insight => AIInsight.type insight = AIInsight.alert)
            (detectDowntimePatterns oeeData').
Proof.
  split; [|split; [|split]].
  - apply engine_output_Forall; intros; cbn; eauto 6.
  - by apply detectCycleTimeAnomalies_Forall.
  - by apply detectScrapPatterns_Forall.
  - by apply detectDowntimePatterns_Forall.
Qed.

(** A query that rejects ends [generateInsights] with the insights
    gathered so far: the later checks are skipped even if their queries
    would succeed, and no error reaches the caller.  Without both
    [AI_SERVICE_URL] and [AI_API_KEY] the enrichment endpoint plays no part
    in the result. *)
Theorem generateInsights_partial (cfg : config)
  (q1 : Result (list OEE.t)) (q2 : Result (list Scrap.t))
  (q3 : Result (list OEE.t)) (post post' : axios_outcome) :
  (forall e, q1 = Throw e ->
             generateInsights cfg (mkWorld q1 q2 q3 post) = Ok [])
  /\ (forall oeeData e, q1 = Ok oeeData -> q2 = Throw e ->
        generateInsights cfg (mkWorld q1 q2 q3 post)
        = Ok (detectCycleTimeAnomalies oeeData))
  /\ (forall oeeData scrapData e,
        q1 = Ok oeeData -> q2 = Ok scrapData -> q3 = Throw e ->
        generateInsights cfg (mkWorld q1 q2 q3 post)
        = Ok (detectCycleTimeAnomalies oeeData
              ++ detectScrapPatterns scrapData))
  /\ (Terms.enrichment_off cfg ->
      generateInsights cfg (mkWorld q1 q2 q3 post)
      = generateInsights cfg (mkWorld q1 q2 q3 post')).
Proof.
  split; [|split; [|split]].
  - by intros e ->.
  - by intros oeeData e -> ->.
  - by intros oeeData scrapData e -> -> ->.
  - unfold Terms.enrichment_off. intros Hoff. unfold generateInsights.
    cbn [cycleTimeQuery scrapQuery downtimeQuery enrichment].
    by rewrite Hoff.
Qed.

Lemma generateInsights_partial_witness :
  Terms.enrichment_off (mkConfig (Some "http://ai") None)
  /\ generateInsights (mkConfig (Some "http://ai") None)
       (mkWorld (Ok Samples.ten_records) (Throw StoreError) (Ok [])
          (Ok DataNullish))
     = Ok (detectCycleTimeAnomalies Samples.ten_records)
  /\ generateInsights (mkConfig (Some "http://ai") None)
       (mkWorld (Ok Samples.ten_records) (Ok []) (Ok []) (Ok DataNullish))
     = generateInsights (mkConfig (Some "http://ai") None)
         (mkWorld (Ok Samples.ten_records) (Ok []) (Ok [])
            (Throw (AxiosError None))).
Proof.
  split; [reflexivity|]. split.
  - exact (proj1 (proj2 (generateInsights_partial
                           (mkConfig (Some "http://ai") None)
                           (Ok Samples.ten_records) (Throw StoreError) (Ok [])
                           (Ok DataNullish) (Ok DataNullish)))
             Samples.ten_records StoreError eq_refl eq_refl).
  - exact (proj2 (proj2 (proj2 (generateInsights_partial
                           (mkConfig (Some "http://ai") None)
                           (Ok Samples.ten_records) (Ok []) (Ok [])
                           (Ok DataNullish) (Throw (AxiosError None)))))
             eq_refl).
Defined.

End EngineExtras.

(** ** More on the simulator and its route *)

Module SimulatorExtras.
Import NumberFacts OrderFacts AIService.
Local Open Scope js_scope.

(** [POST /simulate] answers 400 when [line] is missing or empty, without
    looking at the store; otherwise it answers 200 with the simulation
    exactly when a baseline is found and [runSimulation] returns, and 500
    with the error in every other case: a rejected query, no baseline, or
    one of the cycle-time precondition errors. *)
Theorem simulate_status (line : option string)
  (operators shiftLength cycleTimeAdjustment : option number)
  (found : Result (option OEE.t)) :
  let params :=
    mkParams (default EmptyString line) operators shiftLength
      cycleTimeAdjustment in
  let answer :=
    Routes.simulate line operators shiftLength cycleTimeAdjustment found in
  (str_truthy line = false ->
   answer
   = Routes.mkResponse 400 (Routes.Failure "Line parameter is required" None))
  /\ (str_truthy line = true ->
      (forall baseOEE r,
         found = Ok (Some baseOEE) ->
         runSimulation (Some baseOEE) params = Ok r ->
         answer = Routes.mkResponse 200 (Routes.Success r))
      /\ (forall e, found = Throw e ->
            answer
            = Routes.mkResponse 500 (Routes.Failure "Server error" (Some e)))
      /\ (found = Ok None ->
          answer
          = Routes.mkResponse 500
              (Routes.Failure "Server error"
                 (Some (JsError "No historical data found for simulation"))))
      /\ (forall baseOEE,
            found = Ok (Some baseOEE) ->
            Spec.precondition_error (runSimulation (Some baseOEE) params) ->
            Routes.status answer = 500)
      /\ (Routes.status answer = 200
          <-> exists baseOEE r,
                found = Ok (Some baseOEE)
                /\ runSimulation (Some baseOEE) params = Ok r)).
Proof.
  intros params answer. subst answer. unfold Routes.simulate. split.
  - by intros ->.
  - intros ->. cbn [negb]. fold params. split; [|split; [|split; [|split]]].
    + intros baseOEE r -> Hrun. cbn [mbind Result_bind bind]. by rewrite Hrun.
    + by intros e ->.
    + by intros ->.
    + intros baseOEE -> [H|H]; cbn [mbind Result_bind bind]; by rewrite H.
    + split.
      * destruct found as [[baseOEE|]|e]; cbn [mbind Result_bind bind];
          try done.
        destruct (runSimulation (Some baseOEE) params) as [r|e] eqn:E;
          [|done].
        intros _. by exists baseOEE, r.
      * intros (baseOEE & r & -> & Hrun). cbn [mbind Result_bind bind].
        by rewrite Hrun.
Qed.

Lemma simulate_status_witness :
  str_truthy (Some "L1") = true
  /\ Spec.precondition_error
       (runSimulation (Some Samples.zero_ideal_baseline)
          (mkParams "L1" None None None))
  /\ Routes.status
       (Routes.simulate (Some "L1") None None None
          (Ok (Some Samples.zero_ideal_baseline))) = 500.
Proof.
  assert (H : Spec.precondition_error
                (runSimulation (Some Samples.zero_ideal_baseline)
                   (mkParams "L1" None None None))) by (by left).
  split; [reflexivity|]. split; [exact H|].
  exact (proj1 (proj2 (proj2 (proj2
           (proj2 (simulate_status (Some "L1") None None None
                     (Ok (Some Samples.zero_ideal_baseline))) eq_refl))))
           Samples.zero_ideal_baseline eq_refl H).
Defined.

End SimulatorExtras.

(** ** More on the notification hub *)

Module HubExtras.
Import NotificationService.

Lemma send_notifications id now userId p st :
  notifications (snd (sendNotification id now userId p st))
  = <[userId := getUserNotifications userId false st
                ++ [Notification.stamp id now p]]> (notifications st).
Proof. unfold sendNotification, getUserNotifications. simpl. by destruct (io st). Qed.

Lemma send_io id now userId p st :
  io (snd (sendNotification id now userId p st)) = io st.
Proof. unfold sendNotification. simpl. by destruct (io st) eqn:E. Qed.

Lemma get_all_insert userId other mailbox st m :
  notifications st = <[userId := mailbox]> m ->
  getUserNotifications other false st
  = if decide (userId = other) then mailbox else default [] (m !! other).
Proof.
  intros H. unfold getUserNotifications. rewrite H, lookup_insert.
  by case_decide.
Qed.

Lemma get_unread userId st :
  getUserNotifications userId true st
  = List.filter (fun n => negb (Notification.read n))
      (getUserNotifications userId false st).
Proof. done. Qed.

Lemma send_mailbox id now userId p st other :
  getUserNotifications other false (snd (sendNotification id now userId p st))
  = if decide (userId = other)
    then getUserNotifications userId false st ++ [Notification.stamp id now p]
    else getUserNotifications other false st.
Proof.
  rewrite (get_all_insert _ _ _ _ _ (send_notifications id now userId p st)).
  by case_decide.
Qed.

(** [sendNotification] returns the stamped, unread notification and puts
    it last in the user's mailbox, in the full view and in the unread view
    alike; no other user's view changes. *)
Theorem sendNotification_appends id now userId p st :
  fst (sendNotification id now userId p st) = Notification.stamp id now p
  /\ Notification.read (Notification.stamp id now p) = false
  /\ getUserNotifications userId false
       (snd (sendNotification id now userId p st))
     = getUserNotifications userId false st ++ [Notification.stamp id now p]
  /\ getUserNotifications userId true
       (snd (sendNotification id now userId p st))
     = getUserNotifications userId true st ++ [Notification.stamp id now p]
  /\ (forall other unreadOnly,
        other <> userId ->
        getUserNotifications other unreadOnly
          (snd (sendNotification id now userId p st))
        = getUserNotifications other unreadOnly st).
Proof.
  split; [done|]. split; [done|].
  assert (Hall : getUserNotifications userId false
                   (snd (sendNotification id now userId p st))
                 = getUserNotifications userId false st
                   ++ [Notification.stamp id now p]).
  { rewrite send_mailbox. by rewrite decide_True. }
  split; [exact Hall|]. split.
  - rewrite !get_unread, Hall, List.filter_app. done.
  - intros other unreadOnly Hother.
    assert (E : getUserNotifications other false
                  (snd (sendNotification id now userId p st))
                = getUserNotifications other false st).
    { rewrite send_mailbox. by rewrite decide_False. }
    destruct unreadOnly; [|exact E]. by rewrite !get_unread, E.
Qed.

Lemma sendNotification_appends_witness :
  "u2" <> "u1"
  /\ getUserNotifications "u2" false
       (snd (sendNotification "n3" 5 "u1"
               (NotificationService.insightNotification
                  (AIService.downtimeInsight Samples.down80)) Samples.hub))
     = getUserNotifications "u2" false Samples.hub.
Proof.
  assert (H : "u2" <> "u1") by discriminate.
  split; [exact H|].
  exact (proj2 (proj2 (proj2 (proj2
           (sendNotification_appends "n3" 5 "u1"
              (NotificationService.insightNotification
                 (AIService.downtimeInsight Samples.down80)) Samples.hub))))
           "u2" false H).
Defined.

Lemma mark_first_fresh nid (mailbox : list Notification.t) n :
  Forall (fun m => Notification.id m <> nid) mailbox ->
  Notification.id n = nid ->
  Spec.mark_first nid (mailbox ++ [n]) = mailbox ++ [Notification.set_read n].
Proof.
  intros Hfresh Hn. induction Hfresh as [|m mailbox Hm _ IH]; cbn.
  - by rewrite (proj2 (String.eqb_eq _ _) Hn).
  - rewrite (proj2 (String.eqb_neq _ _) Hm). by rewrite IH.
Qed.

Lemma markAsRead_view userId nid st other :
  getUserNotifications other false (markAsRead userId nid st)
  = if decide (userId = other)
    then Spec.mark_first nid (getUserNotifications userId false st)
    else getUserNotifications other false st.
Proof.
  rewrite NotificationProofs.markAsRead_mailbox.
  unfold getUserNotifications.
  destruct (notifications st !! userId) as [mailbox|] eqn:Hu.
  - cbn [notifications with_notifications]. rewrite lookup_insert.
    case_decide; by subst.
  - case_decide; [subst; by rewrite Hu | done].
Qed.

(** Sending a notification under an id the user's mailbox does not hold
    yet and marking that id as read leaves the unread view as it was before
    the two calls; the mailbox has gained the notification, read. *)
Theorem send_then_markAsRead id now userId p st :
  Forall (fun n => Notification.id n <> id)
         (getUserNotifications userId false st) ->
  getUserNotifications userId true
    (markAsRead userId id (snd (sendNotification id now userId p st)))
  = getUserNotifications userId true st
  /\ getUserNotifications userId false
       (markAsRead userId id (snd (sendNotification id now userId p st)))
     = getUserNotifications userId false st
       ++ [Notification.set_read (Notification.stamp id now p)].
Proof.
  intros Hfresh.
  assert (Hall : getUserNotifications userId false
                   (markAsRead userId id
                      (snd (sendNotification id now userId p st)))
                 = getUserNotifications userId false st
                   ++ [Notification.set_read (Notification.stamp id now p)]).
  { rewrite markAsRead_view, decide_True by done.
    rewrite send_mailbox, decide_True by done.
    by apply mark_first_fresh. }
  split; [|exact Hall].
  rewrite !get_unread, Hall, List.filter_app. cbn. by rewrite app_nil_r.
Qed.

Lemma send_then_markAsRead_witness :
  Forall (fun n => Notification.id n <> "n3")
         (getUserNotifications "u1" false Samples.hub)
  /\ getUserNotifications "u1" true
       (markAsRead "u1" "n3"
          (snd (sendNotification "n3" 5 "u1"
                  (NotificationService.insightNotification
                     (AIService.downtimeInsight Samples.down80))
                  Samples.hub)))
     = getUserNotifications "u1" true Samples.hub.
Proof.
  assert (H : Forall (fun n => Notification.id n <> "n3")
                     (getUserNotifications "u1" false Samples.hub)).
  { repeat constructor; discriminate. }
  split; [exact H|].
  exact (proj1 (send_then_markAsRead "n3" 5 "u1" _ Samples.hub H)).
Defined.

Lemma unread_mark_first_length nid (mailbox : list Notification.t) :
  let unread l := List.filter (fun n => negb (Notification.read n)) l in
  (length (unread (Spec.mark_first nid mailbox)) <= length (unread mailbox)
   /\ length (unread mailbox)
      <= S (length (unread (Spec.mark_first nid mailbox))))%nat.
Proof.
  induction mailbox as [|n mailbox IH]; cbn; [lia|].
  destruct (String.eqb (Notification.id n) nid).
  - cbn. destruct (Notification.read n); cbn; lia.
  - cbn. destruct (Notification.read n); cbn in *; lia.
Qed.

Lemma unread_mark_first_gone nid (mailbox : list Notification.t) :
  NoDup (map Notification.id mailbox) ->
  Forall (fun n => Notification.id n <> nid)
         (List.filter (fun n => negb (Notification.read n))
            (Spec.mark_first nid mailbox)).
Proof.
  induction mailbox as [|n mailbox IH]; [constructor|].
  cbn [map]. intros Hnd. apply list.NoDup_cons in Hnd as [Hn Hnd].
  cbn [Spec.mark_first].
  destruct (String.eqb_spec (Notification.id n) nid) as [E|E].
  - cbn. apply Forall_forall. intros m Hm. apply filter_In in Hm as [Hm _].
    intros Em. apply Hn. rewrite E, <- Em.
    apply list_elem_of_In, in_map, Hm.
  - cbn [List.filter]. destruct (negb (Notification.read n)).
    + constructor; [done | by apply IH].
    + by apply IH.
Qed.

(** [markAsRead] never makes the unread view longer and shortens it by at
    most one notification; when the ids in the user's mailbox are pairwise
    distinct, no unread notification with the given id is left. *)
Theorem markAsRead_unread userId nid st :
  (length (getUserNotifications userId true (markAsRead userId nid st))
   <= length (getUserNotifications userId true st)
   /\ length (getUserNotifications userId true st)
      <= S (length (getUserNotifications userId true
                      (markAsRead userId nid st))))%nat
  /\ (NoDup (map Notification.id (getUserNotifications userId false st)) ->
      Forall (fun n => Notification.id n <> nid)
             (getUserNotifications userId true (markAsRead userId nid st))).
Proof.
  rewrite !get_unread, markAsRead_view, decide_True by done. split.
  - apply unread_mark_first_length.
  - apply unread_mark_first_gone.
Qed.

Lemma markAsRead_unread_witness :
  NoDup (map Notification.id (getUserNotifications "u1" false Samples.hub))
  /\ Forall (fun n => Notification.id n <> "n2")
            (getUserNotifications "u1" true
               (markAsRead "u1" "n2" Samples.hub)).
Proof.
  assert (H : NoDup (map Notification.id
                       (getUserNotifications "u1" false Samples.hub))).
  { apply (NoDup_cons_2 "n1" ["n2"]).
    - intros Hin. apply list_elem_of_singleton in Hin. discriminate Hin.
    - apply NoDup_singleton. }
  split; [exact H|].
  exact (proj2 (markAsRead_unread "u1" "n2" Samples.hub) H).
Defined.

End HubExtras.

(** ** Insights and scans carried out on the hub *)

Module DeliveryExtras.
Import NumberFacts OrderFacts NotificationService.
Local Open Scope js_scope.

Lemma sendAIInsights_from_view stamps i userId insights st other :
  getUserNotifications other false
    (sendAIInsights_from stamps i userId insights st)
  = if decide (userId = other)
    then getUserNotifications userId false st
         ++ Terms.insight_notices stamps i insights
    else getUserNotifications other false st.
Proof.
  revert i st. induction insights as [|insight rest IH]; intros i st.
  - cbn. case_decide; [subst; by rewrite app_nil_r | done].
  - cbn [sendAIInsights_from Terms.insight_notices]. rewrite IH.
    destruct (forwarded insight).
    + rewrite !HubExtras.send_mailbox. case_decide.
      * by rewrite decide_True, <- app_assoc.
      * done.
    + by case_decide.
Qed.

Lemma insight_notices_fields stamps i insights :
  map Notification.title (Terms.insight_notices stamps i insights)
  = map AIInsight.title (List.filter forwarded insights)
  /\ map Notification.message (Terms.insight_notices stamps i insights)
     = map AIInsight.description (List.filter forwarded insights)
  /\ map Notification.priority (Terms.insight_notices stamps i insights)
     = map AIInsight.priority (List.filter forwarded insights)
  /\ Forall (fun n => Notification.read n = false)
            (Terms.insight_notices stamps i insights).
Proof.
  revert i. induction insights as [|insight rest IH]; intros i.
  - by repeat split.
  - destruct (IH (S i)) as (H1 & H2 & H3 & H4).
    cbn [Terms.insight_notices List.filter].
    destruct (forwarded insight); cbn; rewrite ?H1, ?H2, ?H3;
      repeat split; try done.
    by constructor.
Qed.

(** [sendAIInsights] appends to the user's mailbox one unread notification
    for each insight of priority high or critical, in order, with the
    insight's title, description and priority; insights of lower priority
    are dropped and no other user's view changes. *)
Theorem sendAIInsights_mailbox stamps userId insights st :
  (exists news,
     getUserNotifications userId false
       (sendAIInsights stamps userId insights st)
     = getUserNotifications userId false st ++ news
     /\ map Notification.title news
        = map AIInsight.title (List.filter forwarded insights)
     /\ map Notification.message news
        = map AIInsight.description (List.filter forwarded insights)
     /\ map Notification.priority news
        = map AIInsight.priority (List.filter forwarded insights)
     /\ Forall (fun n => Notification.read n = false) news)
  /\ (forall other unreadOnly,
        other <> userId ->
        getUserNotifications other unreadOnly
          (sendAIInsights stamps userId insights st)
        = getUserNotifications other unreadOnly st).
Proof.
  unfold sendAIInsights. split.
  - exists (Terms.insight_notices stamps 0 insights).
    split; [|apply insight_notices_fields].
    by rewrite sendAIInsights_from_view, decide_True.
  - intros other unreadOnly Hother.
    assert (E : getUserNotifications other false
                  (sendAIInsights_from stamps 0 userId insights st)
                = getUserNotifications other false st).
    { by rewrite sendAIInsights_from_view, decide_False. }
    destruct unreadOnly; [|exact E]. by rewrite !HubExtras.get_unread, E.
Qed.

Lemma sendAIInsights_mailbox_witness :
  "u2" <> "u1"
  /\ getUserNotifications "u2" true
       (sendAIInsights Terms.example_stamps "u1"
          (AIService.detectDowntimePatterns [Samples.down80]) Samples.hub)
     = getUserNotifications "u2" true Samples.hub.
Proof.
  assert (H : "u2" <> "u1") by discriminate.
  split; [exact H|].
  exact (proj2 (sendAIInsights_mailbox Terms.example_stamps "u1"
                  (AIService.detectDowntimePatterns [Samples.down80])
                  Samples.hub) "u2" true H).
Defined.

Lemma filter_all {A : Type} (p : A -> bool) (l : list A) :
  Forall (fun x => p x = true) l -> List.filter p l = l.
Proof.
  induction 1 as [|x l Hx _ IH]; [done|]. cbn. by rewrite Hx, IH.
Qed.

(** Handing the output of the three checks to [sendAIInsights] stores every
    one of them: the user's mailbox grows by the number of insights. *)
Theorem sendAIInsights_engine_output stamps userId st
  (oeeData : list OEE.t) (scrapData : list Scrap.t) (oeeData' : list OEE.t) :
  length (getUserNotifications userId false
            (sendAIInsights stamps userId
               (Terms.engine_output oeeData scrapData oeeData') st))
  = (length (getUserNotifications userId false st)
     + length (Terms.engine_output oeeData scrapData oeeData'))%nat.
Proof.
  unfold sendAIInsights. rewrite sendAIInsights_from_view, decide_True by done.
  rewrite length_app. f_equal.
  destruct (insight_notices_fields stamps 0
              (Terms.engine_output oeeData scrapData oeeData'))
    as (Htitles & _).
  rewrite <- (length_map Notification.title), Htitles, length_map.
  by rewrite filter_all
    by (by apply EngineExtras.engine_output_Forall).
Qed.

Lemma cycleTimeAlerts_fold recentJobs calls :
  fold_left
    (fun calls job =>
       if JobCard.targetCycleTime job >? zero
       then
         let currentCycleTime :=
           JobCard.totalCycleTime job / max (JobCard.unitsCompleted job) one in
         if currentCycleTime >? JobCard.targetCycleTime job * of_Q 1.3
         then calls ++ [cycleTimeAlert job currentCycleTime]
         else calls
       else calls)
    recentJobs calls
  = calls
    ++ map (fun job => cycleTimeAlert job (Terms.currentCycleTime job))
         (List.filter
            (fun job =>
               (JobCard.targetCycleTime job >? zero)
               && (Terms.currentCycleTime job
                   >? JobCard.targetCycleTime job * of_Q 1.3))
            recentJobs).
Proof.
  revert calls. induction recentJobs as [|job jobs IH]; intros calls.
  - cbn. by rewrite app_nil_r.
  - cbn [fold_left List.filter]. rewrite IH.
    fold (Terms.currentCycleTime job).
    destruct (JobCard.targetCycleTime job >? zero); cbn [andb]; [|done].
    cbn zeta. destruct (_ >? _); [|done].
    by rewrite <- app_assoc.
Qed.

Lemma cycleTimeAlerts_filter recentJobs :
  cycleTimeAlerts recentJobs
  = map (fun job => cycleTimeAlert job (Terms.currentCycleTime job))
      (List.filter
         (fun job =>
            (JobCard.targetCycleTime job >? zero)
            && (Terms.currentCycleTime job
                >? JobCard.targetCycleTime job * of_Q 1.3))
         recentJobs).
Proof. unfold cycleTimeAlerts. by rewrite cycleTimeAlerts_fold. Qed.




End DeliveryExtras.

(** ** A scan on the hub *)

Module ScanExtras.
Import NotificationService.

Lemma broadcast_notifications id now role p st :
  notifications (broadcastAlert id now role p st) = notifications st.
Proof. unfold broadcastAlert. by destruct (io st). Qed.

Lemma broadcast_view id now role p st user :
  getUserNotifications user false (broadcastAlert id now role p st)
  = getUserNotifications user false st.
Proof. unfold getUserNotifications. by rewrite broadcast_notifications. Qed.

Lemma broadcast_offline id now role p st :
  io st = false -> broadcastAlert id now role p st = st.
Proof. unfold broadcastAlert. by intros ->. Qed.

Lemma send_offline id now userId p st :
  io st = false ->
  emitted (snd (sendNotification id now userId p st)) = emitted st
  /\ io (snd (sendNotification id now userId p st)) = false.
Proof. unfold sendNotification. simpl. intros H. rewrite H. by split. Qed.

Lemma perform_from_prefix stamps i calls st user :
  getUserNotifications user false st
  `prefix_of` getUserNotifications user false (perform_from stamps i calls st).
Proof.
  revert i st. induction calls as [|call rest IH]; intros i st; [done|].
  cbn [perform_from]. etransitivity; [|apply IH].
  destruct call as [role p|userId p].
  - by rewrite broadcast_view.
  - rewrite HubExtras.send_mailbox. case_decide; [subst|done].
    by apply prefix_app_r.
Qed.

Lemma perform_from_untouched stamps i calls st user :
  Forall (fun call => ~ Terms.sends_to user call) calls ->
  getUserNotifications user false (perform_from stamps i calls st)
  = getUserNotifications user false st.
Proof.
  intros H. revert i st.
  induction H as [|call rest Hcall _ IH]; intros i st; [done|].
  cbn [perform_from]. rewrite IH.
  destruct call as [role p|userId p].
  - apply broadcast_view.
  - rewrite HubExtras.send_mailbox. by rewrite decide_False.
Qed.

Lemma perform_from_offline stamps i calls st :
  io st = false ->
  emitted (perform_from stamps i calls st) = emitted st.
Proof.
  revert i st. induction calls as [|call rest IH]; intros i st Hio; [done|].
  cbn [perform_from]. destruct call as [role p|userId p].
  - rewrite broadcast_offline by done. by apply IH.
  - destruct (send_offline (fst (stamps i)) (snd (stamps i)) userId p st Hio)
      as [He Hio'].
    rewrite IH by done. exact He.
Qed.

Lemma pushed_calls {A : Type} (P : action -> Prop) (p : A -> bool)
  (f : A -> action) (l : list A) :
  (forall x, In x l -> P (f x)) ->
  Forall P (fold_left (fun out x => if p x then out ++ [f x] else out) l []).
Proof.
  intros H. rewrite ListFacts.fold_left_push, app_nil_l.
  apply Forall_map, Forall_forall. intros x Hx. apply H.
  by apply filter_In in Hx as [Hx _].
Qed.

Lemma monitor_sends q1 q2 q3 user :
  (forall jobs, q3 = Ok jobs -> ~ In user (map JobCard.operator jobs)) ->
  Forall (fun call => ~ Terms.sends_to user call) (monitorAlerts q1 q2 q3).
Proof.
  intros Huser. unfold monitorAlerts.
  assert (Hscrap : forall recentScrap,
            Forall (fun call => ~ Terms.sends_to user call)
                   (scrapAlerts recentScrap)).
  { intros. apply pushed_calls. intros x _ H. exact H. }
  assert (Hdown : forall recentOEE,
            Forall (fun call => ~ Terms.sends_to user call)
                   (downtimeAlerts recentOEE)).
  { intros. apply pushed_calls. intros x _ H. exact H. }
  destruct q1 as [recentScrap|]; [|constructor].
  destruct q2 as [recentOEE|]; [|apply Hscrap].
  destruct q3 as [recentJobs|]; rewrite ?Forall_app; [|by split].
  split; [by split|].
  rewrite DeliveryExtras.cycleTimeAlerts_filter.
  apply Forall_map, Forall_forall. intros job Hjob Hsend. cbn in Hsend.
  apply filter_In in Hjob as [Hjob _].
  apply (Huser recentJobs eq_refl). rewrite <- Hsend. by apply in_map.
Qed.

(** Carrying out a scan only ever appends to mailboxes, writes to no
    mailbox but those of the operators of the in-progress jobs it read, and
    emits nothing while no socket server is attached. *)
Theorem monitor_mailboxes stamps q1 q2 q3 st :
  (forall user,
     getUserNotifications user false st
     `prefix_of` getUserNotifications user false
                   (perform stamps (monitorAlerts q1 q2 q3) st))
  /\ (forall user,
        (forall jobs, q3 = Ok jobs -> ~ In user (map JobCard.operator jobs)) ->
        getUserNotifications user false
          (perform stamps (monitorAlerts q1 q2 q3) st)
        = getUserNotifications user false st)
  /\ (io st = false ->
      emitted (perform stamps (monitorAlerts q1 q2 q3) st) = emitted st).
Proof.
  unfold perform. split; [|split].
  - intros user. apply perform_from_prefix.
  - intros user Huser. by apply perform_from_untouched, monitor_sends.
  - apply perform_from_offline.
Qed.

Lemma monitor_mailboxes_witness :
  (forall jobs, Ok [Terms.slow_job] = Ok jobs ->
                ~ In "u1" (map JobCard.operator jobs))
  /\ getUserNotifications "u1" false
       (perform Terms.example_stamps
          (monitorAlerts (Ok Samples.defects) (Ok [Samples.down120])
             (Ok [Terms.slow_job])) Samples.hub)
     = getUserNotifications "u1" false Samples.hub.
Proof.
  assert (H : forall jobs, Ok [Terms.slow_job] = Ok jobs ->
                           ~ In "u1" (map JobCard.operator jobs)).
  { intros jobs [= <-] [E|[]]. discriminate E. }
  split; [exact H|].
  exact (proj1 (proj2 (monitor_mailboxes Terms.example_stamps
                         (Ok Samples.defects) (Ok [Samples.down120])
                         (Ok [Terms.slow_job]) Samples.hub)) "u1" H).
Defined.

End ScanExtras.

(** ** Route handlers *)

Module RouteExtras.
Import NumberFacts OrderFacts.
Local Open Scope js_scope.

(** The log-issue response keeps alerts and recommendations: of what the
    three checks emit, these are exactly the downtime alerts, in order. *)
Theorem issueInsights_engine_output
  (oeeData : list OEE.t) (scrapData : list Scrap.t) (oeeData' : list OEE.t) :
  Routes.issueInsights (Terms.engine_output oeeData scrapData oeeData')
  = AIService.detectDowntimePatterns oeeData'.
Proof.
  unfold Routes.issueInsights, Terms.engine_output.
  rewrite !List.filter_app.
  rewrite EngineExtras.filter_none, app_nil_l
    by (by apply EngineExtras.detectCycleTimeAnomalies_Forall).
  rewrite EngineExtras.filter_none, app_nil_l
    by (by apply EngineExtras.detectScrapPatterns_Forall).
  by apply DeliveryExtras.filter_all,
    EngineExtras.detectDowntimePatterns_Forall.
Qed.

Lemma averageOEE_nil : Routes.averageOEE [] = zero.
Proof. done. Qed.

(** In the executive summary the OEE trend is 0 whenever the previous
    week's average OEE is not above 0, in particular without records for
    that week.  The quality trend is guarded by the average OEE of the whole
    window, not by the recent records it divides by: with a positive
    average and no record in the last week it is NaN. *)
Theorem executiveSummary_guards
  (oeeData recentOEE previousOEE : list OEE.t)
  (scrapPercentage throughput leadTime : number)
  (aiInsights : list AIInsight.t) :
  let s := Routes.executiveSummary oeeData recentOEE previousOEE
             scrapPercentage throughput leadTime aiInsights in
  ((Routes.averageOEE previousOEE >? zero) = false ->
   Routes.oee_trend s = zero /\ Routes.productivity s = zero)
  /\ (previousOEE = [] -> Routes.oee_trend s = zero)
  /\ ((Routes.averageOEE oeeData >? zero) = true -> recentOEE = [] ->
      Routes.quality s = NaN)
  /\ ((Routes.averageOEE oeeData >? zero) = false ->
      Routes.quality s = zero).
Proof.
  intros s. subst s. unfold Routes.executiveSummary.
  cbn [Routes.oee_trend Routes.productivity Routes.quality].
  split; [|split; [|split]].
  - by intros ->.
  - by intros ->.
  - by intros -> ->.
  - by intros ->.
Qed.

Lemma executiveSummary_guards_witness :
  (Routes.averageOEE Samples.ten_records >? zero) = true
  /\ Routes.quality
       (Routes.executiveSummary Samples.ten_records [] [] zero zero zero [])
     = NaN.
Proof.
  split; [reflexivity|].
  exact (proj1 (proj2 (proj2 (executiveSummary_guards Samples.ten_records
                                [] [] zero zero zero [])))
           eq_refl eq_refl).
Defined.

End RouteExtras.

(** * Proofs in double arithmetic *)

Module FloatFacts.
Import PrimFloat SpecFloat FloatOps FloatAxioms.
Import Double.
Local Open Scope float_scope.

(** [NaN] is the one number that is not equal to itself. *)
Lemma is_nan_spec x :
  is_nan x = match Prim2SF x with S754_nan => true | _ => false end.
Proof.
  unfold is_nan. rewrite eqb_spec.
  destruct (Prim2SF x) as [[]|[]| |s m e]; try reflexivity.
  unfold SFeqb, SFcompare.
  by destruct s; rewrite Z.compare_refl, Pos.compare_cont_refl.
Qed.

Lemma truthy_spec x :
  truthy x = match Prim2SF x with
             | S754_nan | S754_zero _ => false
             | _ => true
             end.
Proof.
  unfold truthy. rewrite is_nan_spec, eqb_spec.
  change (Prim2SF 0) with (S754_zero false).
  by destruct (Prim2SF x) as [[]|[]| |[] m e].
Qed.

Lemma is_finite_spec x :
  is_finite x = match Prim2SF x with
                | S754_nan | S754_infinity _ => false
                | _ => true
                end.
Proof.
  unfold is_finite, is_infinity. rewrite is_nan_spec, eqb_spec, abs_spec.
  change (Prim2SF infinity) with (S754_infinity false).
  by destruct (Prim2SF x) as [[]|[]| |[] m e].
Qed.

(** A number above 0 passes the two tests of a cycle-time check. *)
Lemma above_zero_truthy x : (0 <? x) = true -> truthy x = true.
Proof.
  rewrite truthy_spec, ltb_spec. change (Prim2SF 0) with (S754_zero false).
  by destruct (Prim2SF x) as [[]|[]| |[] m e].
Qed.

Lemma above_zero_not_le_zero x : (0 <? x) = true -> (x <=? 0) = false.
Proof.
  rewrite leb_spec, ltb_spec. change (Prim2SF 0) with (S754_zero false).
  by destruct (Prim2SF x) as [[]|[]| |[] m e].
Qed.

Lemma not_le_zero_pos x :
  is_nan x = false -> (x <=? 0) = false -> (0 <? x) = true.
Proof.
  rewrite is_nan_spec, leb_spec, ltb_spec.
  change (Prim2SF 0) with (S754_zero false).
  by destruct (Prim2SF x) as [[]|[]| |[] m e].
Qed.

(** ** Rounding never yields [NaN] *)

Lemma shr_1_nonneg mrs : (0 <= shr_m mrs)%Z -> (0 <= shr_m (shr_1 mrs))%Z.
Proof. destruct mrs as [[|[p|p|]|p] r s]; simpl; lia. Qed.

Lemma iter_shr_1_nonneg p mrs :
  (0 <= shr_m mrs)%Z -> (0 <= shr_m (iter_pos shr_1 p mrs))%Z.
Proof.
  revert mrs. induction p as [p IH|p IH|]; intros mrs H; cbn [iter_pos].
  - by apply IH, IH, shr_1_nonneg.
  - by apply IH, IH.
  - by apply shr_1_nonneg.
Qed.

Lemma shr_fexp_nonneg m e l :
  (0 <= m)%Z -> (0 <= shr_m (fst (shr_fexp prec emax m e l)))%Z.
Proof.
  intros H. unfold shr_fexp, shr.
  assert (H0 : (0 <= shr_m (shr_record_of_loc m l))%Z)
    by (by destruct l as [|[]]).
  destruct (_ - e)%Z; cbn [fst]; [done| |done].
  by apply iter_shr_1_nonneg.
Qed.

Lemma round_nearest_even_nonneg m l :
  (0 <= m)%Z -> (0 <= round_nearest_even m l)%Z.
Proof.
  intros H. destruct l as [|[]]; cbn [round_nearest_even]; try lia.
  destruct (Z.even m); lia.
Qed.

Lemma binary_round_aux_not_nan sx mx ex lx :
  (0 <= mx)%Z -> binary_round_aux prec emax sx mx ex lx <> S754_nan.
Proof.
  intros H. unfold binary_round_aux.
  pose proof (shr_fexp_nonneg mx ex lx H) as H1.
  destruct (shr_fexp prec emax mx ex lx) as [mrs' e'].
  cbn [fst] in H1.
  pose proof (shr_fexp_nonneg _ e' loc_Exact
                (round_nearest_even_nonneg _ (loc_of_shr_record mrs') H1)) as H2.
  destruct (shr_fexp prec emax _ e' loc_Exact) as [mrs'' e''].
  cbn [fst] in H2.
  destruct (shr_m mrs''); [done| |lia].
  by destruct (_ <=? _)%Z.
Qed.

Lemma binary_normalize_not_nan m e szero :
  binary_normalize prec emax m e szero <> S754_nan.
Proof.
  destruct m as [|m|m]; cbn [binary_normalize]; [done| |];
    unfold binary_round;
    destruct (shl_align _ _ _) as [mz ez];
    by apply binary_round_aux_not_nan.
Qed.

(** Adding a finite number to a number gives a number. *)
Lemma add_not_nan x y :
  is_nan x = false -> is_finite y = true -> is_nan (x + y) = false.
Proof.
  rewrite !is_nan_spec, is_finite_spec, add_spec. unfold SF64add.
  destruct (Prim2SF x) as [sx|sx| |sx mx ex] eqn:Ex; [| |done|];
    destruct (Prim2SF y) as [sy|sy| |sy my ey] eqn:Ey; try done;
    intros _ _.
  - by destruct sx, sy.
  - cbn [SFadd].
    pose proof (binary_normalize_not_nan
      (cond_Zopp sx (Z.pos (fst (shl_align mx ex (Z.min ex ey))))
       + cond_Zopp sy (Z.pos (fst (shl_align my ey (Z.min ex ey)))))%Z
      (Z.min ex ey) false) as H.
    by destruct (binary_normalize _ _ _ _ _).
Qed.

(** [(x || 0) + y] is [x + y] unless [x] is [NaN] or [y] is a zero. *)
Lemma or_zero_add x y :
  is_nan x = false -> Spec.countable y = true ->
  (if truthy x then x else 0) + y = x + y.
Proof.
  unfold Spec.countable.
  rewrite is_nan_spec, is_finite_spec, !truthy_spec.
  intros Hx Hy. destruct (Prim2SF x) as [sx|sx| |sx mx ex] eqn:Ex; try done.
  apply Prim2SF_inj. rewrite !add_spec, Ex.
  change (Prim2SF 0) with (S754_zero false).
  by destruct (Prim2SF y) as [sy|sy| |sy my ey].
Qed.

Lemma countable_finite y : Spec.countable y = true -> is_finite y = true.
Proof. unfold Spec.countable. by intros [? _]%andb_prop. Qed.

(** Above 20 is above 15. *)
Lemma gt_20_gt_15 x : (x >? 20) = true -> (x >? 15) = true.
Proof.
  unfold gtb. rewrite !ltb_spec.
  change (Prim2SF 20) with (S754_finite false 5629499534213120 (-48)).
  change (Prim2SF 15) with (S754_finite false 8444249301319680 (-49)).
  destruct (Prim2SF x) as [[]|[]| |[] m e]; try done.
  unfold SFltb, SFcompare.
  destruct (Z.compare_spec (-48) e) as [<-| |]; try done.
  intros _. destruct (Z.compare_spec (-49) e); (done || lia).
Qed.

End FloatFacts.

(** ** The what-if simulator in double arithmetic *)

Module DoubleSimulator.
Import PrimFloat SpecFloat FloatOps FloatAxioms.
Import Double Double.AIService FloatFacts.
Local Open Scope float_scope.

Lemma cycleTimeMultiplier_truthy params :
  truthy (cycleTimeMultiplier params) = true.
Proof.
  unfold cycleTimeMultiplier, or_default.
  destruct (cycleTimeAdjustment params) as [v|]; [|done].
  by destruct (truthy v) eqn:E.
Qed.

(** What a returned result says about the two checks. *)
Lemma runSimulation_checks_passed baseOEE params r :
  runSimulation (Some baseOEE) params = Ok r ->
  truthy (OEE.idealCycleTime baseOEE) = true
  /\ (OEE.idealCycleTime baseOEE <=? 0) = false
  /\ (predictedCycleTime baseOEE params <=? 0) = false.
Proof.
  cbn [runSimulation].
  destruct (truthy (OEE.idealCycleTime baseOEE)); [|done].
  destruct (OEE.idealCycleTime baseOEE <=? 0); [done|].
  cbn [negb orb].
  by destruct (predictedCycleTime baseOEE params <=? 0).
Qed.

(** The product of two truthy numbers is a number. *)
Lemma mul_truthy_not_nan x y :
  truthy x = true -> truthy y = true -> is_nan (x * y) = false.
Proof.
  rewrite !truthy_spec, is_nan_spec, mul_spec. unfold SF64mul.
  destruct (Prim2SF x) as [sx|sx| |sx mx ex]; try done;
    destruct (Prim2SF y) as [sy|sy| |sy my ey]; try done.
  intros _ _. cbn [SFmul].
  pose proof (binary_round_aux_not_nan (xorb sx sy) (Z.pos (mx * my))
                (ex + ey) loc_Exact ltac:(lia)) as H.
  by destruct (binary_round_aux _ _ _ _ _ _).
Qed.

(** Whenever a result is returned, the two divisors of the projection, the
    adjusted cycle time and the effective multiplier, are not zero: the
    first is above 0 and the second is truthy. *)
Lemma runSimulation_divisors baseOEE params r :
  runSimulation (Some baseOEE) params = Ok r ->
  (0 <? predictedCycleTime baseOEE params) = true
  /\ truthy (cycleTimeMultiplier params) = true.
Proof.
  intros (Hi & _ & Hp)%runSimulation_checks_passed.
  split; [|apply cycleTimeMultiplier_truthy].
  apply not_le_zero_pos; [|done].
  apply mul_truthy_not_nan; [done | apply cycleTimeMultiplier_truthy].
Qed.

(** The ideal-cycle-time check refuses 0, -0, negative numbers and NaN. *)
Lemma runSimulation_invalid_ideal baseOEE params :
  truthy (OEE.idealCycleTime baseOEE) = false
  \/ (OEE.idealCycleTime baseOEE <=? 0) = true ->
  runSimulation (Some baseOEE) params
  = Throw (JsError invalid_ideal_cycle_time).
Proof.
  intros H. cbn [runSimulation].
  destruct H as [-> | ->]; [done|]. by rewrite orb_true_r.
Qed.

(** C3, as amended. With an ideal cycle time above 0 and a multiplier above
    0 whose product, rounded, is above 0, the simulation returns: available
    time = shift minutes - downtime, predicted units = available time /
    (ideal cycle time * multiplier), predicted scrap = units * (1 - quality /
    100), predicted throughput = units - scrap, predicted OEE = OEE * (1 /
    multiplier), cost impact = scrap * 50, every operation rounded to the
    nearest double.  On the baseline {idealCycleTime 2, downtime 30, quality
    95, oee 68} with an 8-hour shift and multiplier 1 this is scrap
    11.25000000000001, throughput 213.75, OEE 68 and cost impact
    562.5000000000006. *)
Theorem runSimulation_projection :
  (forall (baseOEE : OEE.t) (line : string)
          (operators shiftLength : option number) (multiplier : number),
     (0 <? OEE.idealCycleTime baseOEE) = true ->
     (0 <? multiplier) = true ->
     (0 <? OEE.idealCycleTime baseOEE * multiplier) = true ->
     let shiftMinutes := or_default shiftLength 8 * 60 in
     let availableTime := shiftMinutes - OEE.downtime baseOEE in
     let predictedUnits :=
       availableTime / (OEE.idealCycleTime baseOEE * multiplier) in
     let predictedScrap :=
       predictedUnits * (1 - OEE.quality baseOEE / 100) in
     runSimulation (Some baseOEE)
       (mkParams line operators shiftLength (Some multiplier)) =
     Ok {| predictedThroughput := predictedUnits - predictedScrap;
           predictedScrap := predictedScrap;
           predictedOEE := OEE.oee baseOEE * (1 / multiplier);
           costImpact := predictedScrap * 50 |})
  /\ (forall (baseOEE : OEE.t) (line : string) (operators : option number),
        OEE.idealCycleTime baseOEE = 2 ->
        OEE.downtime baseOEE = 30 ->
        OEE.quality baseOEE = 95 ->
        OEE.oee baseOEE = 68 ->
        runSimulation (Some baseOEE)
          (mkParams line operators (Some 8) (Some 1)) =
        Ok {| predictedThroughput := 213.75;
              predictedScrap := 11.25000000000001;
              predictedOEE := 68;
              costImpact := 562.5000000000006 |}).
Proof.
  split.
  - intros baseOEE line operators shiftLength multiplier Hi Hm Hp.
    cbn zeta. cbn [runSimulation].
    unfold predictedUnits, availableTime, predictedCycleTime, shiftMinutes,
      cycleTimeMultiplier.
    cbn [cycleTimeAdjustment AIService.shiftLength or_default].
    rewrite (above_zero_truthy _ Hi), (above_zero_not_le_zero _ Hi), (above_zero_truthy _ Hm),
      (above_zero_not_le_zero _ Hp).
    reflexivity.
  - intros baseOEE line operators Hi Hd Hq Ho.
    cbn [runSimulation].
    unfold predictedUnits, availableTime, predictedCycleTime, shiftMinutes,
      cycleTimeMultiplier.
    cbn [cycleTimeAdjustment shiftLength or_default].
    rewrite Hi, Hd, Hq, Ho. reflexivity.
Qed.

Lemma runSimulation_projection_witness :
  (0 <? OEE.idealCycleTime Samples.baseline) = true
  /\ (0 <? 1.5) = true
  /\ (0 <? OEE.idealCycleTime Samples.baseline * 1.5) = true
  /\ runSimulation (Some Samples.baseline) (Samples.request 1.5)
     = Ok {| predictedThroughput := 142.5;
             predictedScrap := 7.500000000000007;
             predictedOEE := 45.33333333333333;
             costImpact := 375.00000000000034 |}.
Proof.
  assert (Hi : (0 <? OEE.idealCycleTime Samples.baseline) = true) by done.
  assert (Hm : (0 <? 1.5) = true) by done.
  assert (Hp : (0 <? OEE.idealCycleTime Samples.baseline * 1.5) = true) by done.
  repeat (split; [done|]).
  unfold Samples.request.
  rewrite (proj1 runSimulation_projection Samples.baseline "L1" None (Some 8)
             1.5 Hi Hm Hp).
  reflexivity.
Defined.

(** C3, counterexample. On the example baseline the predicted scrap is
    not 11.25 and the cost impact is not 562.5; and an ideal cycle time and
    a multiplier of 1e-200, both above 0, are refused, their product being
    0 once rounded. *)
Lemma runSimulation_projection_inexact :
  (exists r,
     runSimulation (Some Samples.baseline) (Samples.request 1) = Ok r
     /\ (predictedScrap r === 11.25) = false
     /\ (costImpact r === 562.5) = false)
  /\ ((0 <? OEE.idealCycleTime Samples.tiny_ideal_baseline) = true
      /\ (0 <? 1e-200) = true
      /\ runSimulation (Some Samples.tiny_ideal_baseline)
           (Samples.request 1e-200)
         = Throw (JsError invalid_predicted_cycle_time)).
Proof.
  split; [|done].
  by eexists; split; [reflexivity|].
Qed.

(** C2, the code at the failing input. On the example baseline a request
    with cycleTimeAdjustment 0 is not refused: 0 gives way to the default 1
    before the check on the adjusted cycle time, and the projection of
    multiplier 1 is returned.  The same check refuses cycleTimeAdjustment
    -1, and the check before it refuses an ideal cycle time of 0. *)
Theorem runSimulation_zero_adjustment_accepted :
  runSimulation (Some Samples.baseline) (Samples.request 0)
  = Ok {| predictedThroughput := 213.75;
          predictedScrap := 11.25000000000001;
          predictedOEE := 68;
          costImpact := 562.5000000000006 |}
  /\ ~ Spec.precondition_error
         (runSimulation (Some Samples.baseline) (Samples.request 0))
  /\ Spec.precondition_error
       (runSimulation (Some Samples.baseline) (Samples.request (-1)))
  /\ Spec.precondition_error
       (runSimulation (Some Samples.zero_ideal_baseline) (Samples.request 1)).
Proof.
  split; [reflexivity|]. split; [|split].
  - by intros [H|H].
  - by right.
  - by left.
Qed.

(** Whether a request is refused depends on the ideal cycle time and on
    cycleTimeAdjustment alone: nothing looks at the downtime, the quality
    or the shift length.  A baseline whose downtime exceeds the shift is
    projected like any other, here to a negative throughput. *)
Theorem runSimulation_downtime_unchecked :
  (forall baseOEE baseOEE' params params',
     OEE.idealCycleTime baseOEE = OEE.idealCycleTime baseOEE' ->
     cycleTimeAdjustment params = cycleTimeAdjustment params' ->
     (exists r, runSimulation (Some baseOEE) params = Ok r)
     <-> (exists r', runSimulation (Some baseOEE') params' = Ok r'))
  /\ (exists r,
        runSimulation (Some Samples.overrun) (Samples.request 1) = Ok r
        /\ (shiftMinutes (Samples.request 1) <? OEE.downtime Samples.overrun)
           = true
        /\ (predictedThroughput r <? 0) = true).
Proof.
  split.
  - assert (H : forall baseOEE baseOEE' params params',
               OEE.idealCycleTime baseOEE = OEE.idealCycleTime baseOEE' ->
               cycleTimeAdjustment params = cycleTimeAdjustment params' ->
               (exists r, runSimulation (Some baseOEE) params = Ok r) ->
               exists r', runSimulation (Some baseOEE') params' = Ok r').
    { intros baseOEE baseOEE' params params' Hi Ha [r Hr].
      apply runSimulation_checks_passed in Hr as (H1 & H2 & H3).
      cbn [runSimulation].
      unfold predictedCycleTime, cycleTimeMultiplier in *.
      rewrite <- Hi, <- Ha, H1, H2, H3. by eexists. }
    intros baseOEE baseOEE' params params' Hi Ha.
    split; apply H; done.
  - by eexists; split; [reflexivity|].
Qed.

Lemma runSimulation_downtime_unchecked_witness :
  OEE.idealCycleTime Samples.baseline = OEE.idealCycleTime Samples.overrun
  /\ ((exists r, runSimulation (Some Samples.baseline) (Samples.request 1)
                 = Ok r)
      <-> (exists r', runSimulation (Some Samples.overrun) (Samples.request 1)
                      = Ok r')).
Proof.
  split; [done|].
  exact (proj1 runSimulation_downtime_unchecked Samples.baseline
           Samples.overrun (Samples.request 1) (Samples.request 1)
           eq_refl eq_refl).
Defined.

End DoubleSimulator.

(** ** The metric calculator in double arithmetic *)

Module DoubleCalculator.
Import PrimFloat SpecFloat FloatOps FloatAxioms.
Import Double Double.CalculationService FloatFacts.
Local Open Scope float_scope.

(** A zero times any number is a zero or [NaN]. *)
Lemma zero_mul_falsy x y : (x === 0) = true -> truthy (x * y) = false.
Proof.
  unfold strict_eq. rewrite truthy_spec, eqb_spec, mul_spec.
  change (Prim2SF 0) with (S754_zero false). unfold SF64mul.
  by destruct (Prim2SF x) as [[]|[]| |[] mx ex];
    destruct (Prim2SF y) as [sy|sy| |sy my ey].
Qed.

(** Dividing by a zero or by [NaN] gives an infinity or [NaN]. *)
Lemma div_by_falsy x y : truthy y = false -> is_finite (x / y) = false.
Proof.
  rewrite truthy_spec, is_finite_spec, div_spec. unfold SF64div.
  by destruct (Prim2SF y) as [sy|sy| |sy my ey];
    destruct (Prim2SF x) as [sx|sx| |sx mx ex].
Qed.

(** An infinity or [NaN] times 100 is an infinity or [NaN]. *)
Lemma mul_100_not_finite x : is_finite x = false -> is_finite (x * 100) = false.
Proof.
  rewrite !is_finite_spec, mul_spec. unfold SF64mul.
  change (Prim2SF 100) with (S754_finite false 7036874417766400 (-46)).
  by destruct (Prim2SF x) as [sx|sx| |sx mx ex].
Qed.

(** C10. [calculatePerformance] returns 0 when idealCycleTime or totalUnits
    is 0; with both other than 0 and actualCycleTime 0 nothing stops the
    division: the divisor actualCycleTime * totalUnits is a zero or NaN and
    the value returned is Infinity, -Infinity or NaN. *)
Theorem calculatePerformance_zero_actual_unguarded
  (idealCycleTime actualCycleTime totalUnits : number) :
  ((idealCycleTime === 0) || (totalUnits === 0) = true ->
   calculatePerformance idealCycleTime actualCycleTime totalUnits = 0)
  /\ ((idealCycleTime === 0) = false ->
      (totalUnits === 0) = false ->
      (actualCycleTime === 0) = true ->
      truthy (actualCycleTime * totalUnits) = false
      /\ is_finite
           (calculatePerformance idealCycleTime actualCycleTime totalUnits)
         = false).
Proof.
  unfold calculatePerformance. split.
  - by intros ->.
  - intros -> -> Ha. cbn [orb].
    pose proof (zero_mul_falsy _ totalUnits Ha) as H.
    split; [done|]. by apply mul_100_not_finite, div_by_falsy.
Qed.

Lemma calculatePerformance_zero_actual_unguarded_witness :
  calculatePerformance 2 0 200 = infinity
  /\ is_finite (calculatePerformance 2 0 200) = false.
Proof.
  split; [reflexivity|].
  exact (proj2 (proj2 (calculatePerformance_zero_actual_unguarded 2 0 200)
                  eq_refl eq_refl eq_refl)).
Defined.

End DoubleCalculator.

(** ** The per-record checks in double arithmetic *)

Module DoubleInsights.
Import PrimFloat SpecFloat FloatOps FloatAxioms.
Import ListFacts Double Double.AIService FloatFacts.
Local Open Scope float_scope.

Lemma avgCycleTime_is_mean oeeData :
  avgCycleTime oeeData = Spec.mean (map OEE.actualCycleTime oeeData).
Proof.
  unfold avgCycleTime, Spec.mean, Spec.sum. rewrite length_map. f_equal.
  generalize 0. induction oeeData as [|r rs IH]; intros acc; simpl; auto.
Qed.

(** C5. The cycle-time check emits nothing for a window of fewer than 10
    records.  Otherwise it emits, in order, one high-priority anomaly
    insight for each of the first 7 (most recent) records whose
    actualCycleTime exceeds 1.2 times the mean actualCycleTime of the whole
    window, and nothing for any other record; sum, mean and product are
    those of double arithmetic. *)
Theorem detectCycleTimeAnomalies_spec (oeeData : list OEE.t) :
  ((length oeeData < 10)%nat -> detectCycleTimeAnomalies oeeData = [])
  /\ ((10 <= length oeeData)%nat ->
      let mean := Spec.mean (map OEE.actualCycleTime oeeData) in
      let exceeds record := OEE.actualCycleTime record >? mean * 1.2 in
      detectCycleTimeAnomalies oeeData
      = map (cycleTimeInsight mean) (List.filter exceeds (take 7 oeeData))
      /\ Forall (fun insight =>
                   AIInsight.type insight = AIInsight.anomaly
                   /\ AIInsight.priority insight = AIInsight.high)
                (detectCycleTimeAnomalies oeeData)).
Proof.
  split.
  - intros H. unfold detectCycleTimeAnomalies.
    by apply Nat.ltb_lt in H as ->.
  - intros H mean exceeds.
    assert (E : detectCycleTimeAnomalies oeeData
                = map (cycleTimeInsight mean)
                      (List.filter exceeds (take 7 oeeData))).
    { unfold detectCycleTimeAnomalies.
      apply Nat.ltb_ge in H as ->.
      rewrite (fold_left_push
                 (fun record =>
                    OEE.actualCycleTime record >? avgCycleTime oeeData * 1.2)
                 (cycleTimeInsight (avgCycleTime oeeData))).
      by rewrite avgCycleTime_is_mean. }
    split; [exact E|]. rewrite E.
    apply Forall_map, Forall_forall. by intros.
Qed.

Lemma detectCycleTimeAnomalies_spec_witness :
  (10 <= length Samples.ten_records)%nat
  /\ detectCycleTimeAnomalies Samples.ten_records
     = [cycleTimeInsight 11 (Samples.cycle 20)].
Proof.
  assert (H : (10 <= length Samples.ten_records)%nat) by (vm_compute; lia).
  split; [exact H|].
  rewrite (proj1 (proj2 (detectCycleTimeAnomalies_spec Samples.ten_records) H)).
  reflexivity.
Defined.

(** The threshold is the rounded product: over twelve records whose mean is
    70/12 it is 6.999999999999999, and the seven records at 7 are
    flagged. *)
Example detectCycleTimeAnomalies_rounded_threshold :
  Spec.mean (map OEE.actualCycleTime Samples.sevens) * 1.2 = 6.999999999999999
  /\ length (detectCycleTimeAnomalies Samples.sevens) = 7%nat.
Proof. by split. Qed.

Lemma detectDowntimePatterns_filter oeeData :
  detectDowntimePatterns oeeData
  = map downtimeInsight
      (List.filter (fun r => downtimePercent r >? 15) oeeData).
Proof.
  unfold detectDowntimePatterns.
  destruct oeeData as [|r rs]; [done|]. cbn [length Nat.eqb].
  by rewrite fold_left_push.
Qed.

(** A finite number above 0 divided by 0 is [Infinity], divided by -0 it is
    [-Infinity]. *)
Lemma pos_div_zero x :
  is_finite x = true -> (0 <? x) = true ->
  x / 0 = infinity /\ x / (-0) = neg_infinity.
Proof.
  rewrite is_finite_spec, ltb_spec. change (Prim2SF 0) with (S754_zero false).
  intros Hf Hp.
  split; apply Prim2SF_inj; rewrite div_spec; unfold SF64div.
  - change (Prim2SF 0) with (S754_zero false).
    by destruct (Prim2SF x) as [[]|[]| |[] m e].
  - change (Prim2SF (-0)) with (S754_zero true).
    by destruct (Prim2SF x) as [[]|[]| |[] m e].
Qed.

(** A zero divided by a zero is [NaN]. *)
Lemma zero_div_zero x y : (x === 0) = true -> (y === 0) = true -> x / y = nan.
Proof.
  unfold strict_eq. rewrite !eqb_spec.
  change (Prim2SF 0) with (S754_zero false). intros Hx Hy.
  apply Prim2SF_inj. rewrite div_spec. unfold SF64div.
  by destruct (Prim2SF x) as [[]|[]| |[] mx ex];
    destruct (Prim2SF y) as [[]|[]| |[] my ey].
Qed.

(** Without planned production time the downtime check divides by zero.
    For a record with finite downtime above 0, a planned time of 0 gives the
    percentage Infinity and the record is reported; a planned time of -0
    gives -Infinity, which fails the test.  With downtime 0 or -0 as well
    the percentage is NaN, which fails the test. *)
Theorem detectDowntimePatterns_no_planned_time
  (oeeData : list OEE.t) (record : OEE.t) :
  In record oeeData ->
  (is_finite (OEE.downtime record) = true ->
   (0 <? OEE.downtime record) = true ->
   (OEE.plannedProductionTime record = 0 ->
    downtimePercent record = infinity
    /\ In (downtimeInsight record) (detectDowntimePatterns oeeData))
   /\ (OEE.plannedProductionTime record = -0 ->
       downtimePercent record = neg_infinity
       /\ (downtimePercent record >? 15) = false))
  /\ ((OEE.plannedProductionTime record === 0) = true ->
      (OEE.downtime record === 0) = true ->
      downtimePercent record = nan
      /\ (downtimePercent record >? 15) = false).
Proof.
  intros Hin. unfold downtimePercent. split.
  - intros Hf Hp. destruct (pos_div_zero _ Hf Hp) as [H0 H1]. split.
    + intros E. rewrite E, H0. split; [done|].
      rewrite detectDowntimePatterns_filter. apply in_map, filter_In.
      split; [done|]. unfold downtimePercent. by rewrite E, H0.
    + intros E. by rewrite E, H1.
  - intros Hz Hd. by rewrite (zero_div_zero _ _ Hd Hz).
Qed.

Lemma detectDowntimePatterns_no_planned_time_witness :
  In (Samples.planned 0) [Samples.planned 0; Samples.planned (-0)]
  /\ detectDowntimePatterns [Samples.planned 0; Samples.planned (-0)]
     = [downtimeInsight (Samples.planned 0)]
  /\ In (downtimeInsight (Samples.planned 0))
        (detectDowntimePatterns [Samples.planned 0; Samples.planned (-0)]).
Proof.
  assert (Hin : In (Samples.planned 0)
                   [Samples.planned 0; Samples.planned (-0)]) by (by left).
  split; [exact Hin|]. split; [reflexivity|].
  exact (proj2 (proj1 (proj1 (detectDowntimePatterns_no_planned_time _ _ Hin)
                         eq_refl eq_refl) eq_refl)).
Defined.

End DoubleInsights.

(** ** Objects and grouping, with the prototype *)

Module DoubleObjects.
Import PrimFloat.
Import Double FloatFacts.
Local Open Scope float_scope.

Lemma inherited_proto : JsObject.inherited "__proto__" = true.
Proof. reflexivity. Qed.

Lemma own_set_own k k' v o :
  JsObject.own k (JsObject.set_own k' v o)
  = if String.eqb k' k then Some v else JsObject.own k o.
Proof.
  induction o as [|[k0 v0] o IH]; [done|].
  cbn [JsObject.set_own JsObject.own].
  destruct (String.eqb_spec k0 k') as [->|Hne]; cbn [JsObject.own].
  - by destruct (String.eqb k' k).
  - rewrite IH. destruct (String.eqb_spec k0 k) as [->|]; [|done].
    destruct (String.eqb_spec k' k); [congruence | done].
Qed.

(** Writing a property changes no other property. *)
Lemma own_set_other k k' v o :
  k' <> k -> JsObject.own k (JsObject.set k' v o) = JsObject.own k o.
Proof.
  intros Hne. unfold JsObject.set.
  assert (E : JsObject.own k (JsObject.set_own k' v o) = JsObject.own k o).
  { rewrite own_set_own. by destruct (String.eqb_spec k' k). }
  destruct (JsObject.own k' o); [done|].
  by destruct (String.eqb k' "__proto__").
Qed.

(** Writing a property that is not [__proto__] stores the value. *)
Lemma own_set_same k v o :
  JsObject.inherited k = false ->
  JsObject.own k (JsObject.set k v o) = Some v.
Proof.
  intros Hk. unfold JsObject.set.
  assert (E : JsObject.own k (JsObject.set_own k v o) = Some v)
    by (by rewrite own_set_own, String.eqb_refl).
  destruct (JsObject.own k o); [done|].
  destruct (String.eqb_spec k "__proto__") as [->|]; [|done].
  by rewrite inherited_proto in Hk.
Qed.

Lemma keys_set_own k v o :
  map fst (JsObject.set_own k v o)
  = if bool_decide (k ∈ map fst o) then map fst o else map fst o ++ [k].
Proof.
  induction o as [|[k0 v0] o IH]; [done|].
  cbn [JsObject.set_own].
  destruct (String.eqb_spec k0 k) as [->|Hne].
  - rewrite bool_decide_eq_true_2; [done | by left].
  - cbn [map fst]. rewrite IH.
    destruct (bool_decide (k ∈ map fst o)) eqn:E.
    + apply bool_decide_eq_true in E.
      rewrite bool_decide_eq_true_2; [done | by right].
    + apply bool_decide_eq_false in E.
      rewrite bool_decide_eq_false_2; [done|].
      intros [?|?]%elem_of_cons; [congruence | done].
Qed.

Lemma set_NoDup k v o :
  NoDup (map fst o) -> NoDup (map fst (JsObject.set k v o)).
Proof.
  intros H.
  assert (H' : NoDup (map fst (JsObject.set_own k v o))).
  { rewrite keys_set_own. case_bool_decide as E; [done|].
    apply list.NoDup_app. split; [done|]. split.
    - intros x Hx Hk. apply list_elem_of_singleton in Hk. by subst.
    - apply NoDup_singleton. }
  unfold JsObject.set. destruct (JsObject.own k o); [done|].
  by destruct (String.eqb k "__proto__").
Qed.

Lemma own_In k v o : JsObject.own k o = Some v -> In (k, v) o.
Proof.
  induction o as [|[k0 v0] o IH]; [done|]. cbn [JsObject.own].
  destruct (String.eqb_spec k0 k) as [->|].
  - intros [= ->]. by left.
  - intros H. right. auto.
Qed.

Lemma In_own k v o :
  NoDup (map fst o) -> In (k, v) o -> JsObject.own k o = Some v.
Proof.
  induction o as [|[k0 v0] o IH]; [done|]. cbn [map fst JsObject.own].
  intros Hnd [E|Hin].
  - injection E as -> ->. by rewrite String.eqb_refl.
  - apply list.NoDup_cons in Hnd as [Hk0 Hnd].
    destruct (String.eqb_spec k0 k) as [->|]; [|by apply IH].
    destruct Hk0. apply list_elem_of_In, in_map_iff. by exists (k, v).
Qed.

Lemma insert_index_In p q l :
  In p (JsObject.insert_index q l) <-> p = q \/ In p l.
Proof.
  induction l as [|r l IH]; cbn [JsObject.insert_index].
  - simpl. intuition.
  - destruct (_ <=? _)%N; simpl; [intuition|].
    rewrite IH. intuition.
Qed.

Lemma sorted_index_In p l :
  In p (foldr JsObject.insert_index [] l) <-> In p l.
Proof.
  induction l as [|q l IH]; [done|].
  cbn [foldr]. rewrite insert_index_In, IH. simpl. intuition.
Qed.

(** [Object.entries] lists exactly the own properties of the object. *)
Lemma entries_In kv o : In kv (JsObject.entries o) <-> In kv o.
Proof.
  unfold JsObject.entries. rewrite in_app_iff, in_map_iff, filter_In.
  unfold JsObject.is_index_key. split.
  - intros [([n kv'] & <- & H)|[H _]]; [|done].
    apply sorted_index_In, list_elem_of_In, list_elem_of_omap in H
      as (kv & Hkv & E).
    apply list_elem_of_In in Hkv.
    destruct (array_index (fst kv)); [|done].
    by injection E as _ <-.
  - intros H. destruct (array_index (fst kv)) as [n|] eqn:E.
    + left. exists (n, kv). split; [done|].
      apply sorted_index_In, list_elem_of_In, list_elem_of_omap.
      exists kv. split; [by apply list_elem_of_In|]. by rewrite E.
    + right. by split.
Qed.

Section Grouping.
Context {A : Type} (key : A -> string) (quantity : A -> number).

Lemma group_NoDup records o :
  NoDup (map fst o) -> NoDup (map fst (group key quantity records o)).
Proof.
  revert o. induction records as [|r records IH]; intros o Ho; [done|].
  apply IH. by apply set_NoDup.
Qed.

Lemma own_group k records o :
  Forall (fun r => Spec.countable (quantity r) = true) records ->
  JsObject.inherited k = false -> plain_at k o ->
  JsObject.own k (group key quantity records o)
  = match JsObject.own k o with
    | Some (JsObject.VNum c) =>
        Some (JsObject.VNum
                (fold_left add (Spec.filed_under key quantity k records) c))
    | Some v => Some v
    | None =>
        match Spec.filed_under key quantity k records with
        | [] => None
        | _ :: _ =>
            Some (JsObject.VNum
                    (fold_left add (Spec.filed_under key quantity k records) 0))
        end
    end.
Proof.
  intros H Hk. revert o. induction H as [|r records Hr _ IH]; intros o Ho.
  - cbn. by destruct (JsObject.own k o) as [[]|].
  - change (group key quantity (r :: records) o)
      with (group key quantity records (accumulate (key r) (quantity r) o)).
    unfold Spec.filed_under. cbn [List.filter].
    destruct (String.eqb_spec (key r) k) as [E|Hne].
    + cbn [map fold_left]. unfold plain_at in Ho.
      assert (Hacc :
        JsObject.own k (accumulate (key r) (quantity r) o)
        = Some (JsObject.VNum
                  (match JsObject.own k o with
                   | Some (JsObject.VNum c) => c
                   | _ => 0
                   end + quantity r))).
      { unfold accumulate, JsObject.get. rewrite E, own_set_same by done.
        destruct (JsObject.own k o) as [[c|m a]|]; [|done|by rewrite Hk].
        by rewrite or_zero_add. }
      rewrite IH; unfold plain_at; rewrite Hacc.
      * fold (Spec.filed_under key quantity k records).
        by destruct (JsObject.own k o) as [[c|m a]|].
      * apply add_not_nan; [|by apply countable_finite].
        by destruct (JsObject.own k o) as [[c|m a]|].
    + assert (Hacc : JsObject.own k (accumulate (key r) (quantity r) o)
                     = JsObject.own k o)
        by (unfold accumulate; by rewrite own_set_other).
      rewrite IH; unfold plain_at; by rewrite Hacc.
Qed.

Lemma own_group_inherited k records o :
  JsObject.inherited k = true -> no_number_at k o ->
  no_number_at k (group key quantity records o).
Proof.
  intros Hk. revert o. induction records as [|r records IH]; intros o Ho.
  - done.
  - apply IH. intros c. unfold accumulate.
    destruct (String.eqb_spec (key r) k) as [E|Hne].
    + rewrite E. unfold JsObject.get, JsObject.set.
      destruct (JsObject.own k o) as [[c'|m a]|] eqn:Eo.
      * by destruct (Ho c').
      * by rewrite own_set_own, String.eqb_refl.
      * rewrite Hk. destruct (String.eqb k "__proto__").
        -- by rewrite Eo.
        -- by rewrite own_set_own, String.eqb_refl.
    + rewrite own_set_other by done. apply Ho.
Qed.

Lemma filed_under_In k records :
  In k (map key records) <-> Spec.filed_under key quantity k records <> [].
Proof.
  unfold Spec.filed_under. split.
  - intros (r & <- & Hr)%in_map_iff H.
    assert (Hf : In r (List.filter (fun r' => String.eqb (key r') (key r))
                         records)).
    { apply filter_In. split; [done|]. apply String.eqb_refl. }
    destruct (List.filter _ records); [done | discriminate].
  - intros H.
    destruct (List.filter _ records) as [|r rs] eqn:E; [done|].
    assert (Hr : In r (List.filter (fun r' => String.eqb (key r') k) records))
      by (rewrite E; by left).
    apply filter_In in Hr as [Hr Hk]. apply String.eqb_eq in Hk as <-.
    by apply in_map.
Qed.

(** Grouping from the empty object files each name that [Object.prototype]
    does not have under the total of its records, and holds a number under
    no other name. *)
Lemma own_group_number k c records :
  Forall (fun r => Spec.countable (quantity r) = true) records ->
  JsObject.own k (group key quantity records JsObject.empty)
  = Some (JsObject.VNum c)
  <-> JsObject.inherited k = false
      /\ In k (map key records)
      /\ c = Spec.total key quantity k records.
Proof.
  intros Hq. destruct (JsObject.inherited k) eqn:Hk.
  - split; [|by intros [? _]]. intros H.
    by destruct (own_group_inherited k records JsObject.empty Hk
                   ltac:(done) c).
  - rewrite own_group by done. cbn [JsObject.own JsObject.empty].
    rewrite filed_under_In. unfold Spec.total, Spec.sum.
    destruct (Spec.filed_under key quantity k records) as [|q qs].
    + split; [done | by intros (_ & ? & _)].
    + split; [by intros [= <-] | by intros (_ & _ & ->)].
Qed.

End Grouping.

End DoubleObjects.

(** ** The periodic monitor against the insight engine, in double
       arithmetic *)

Module DoubleMonitor.
Import PrimFloat.
Import ListFacts Double Double.NotificationService FloatFacts DoubleObjects.
Local Open Scope float_scope.

Lemma downtimeAlerts_filter recentOEE :
  downtimeAlerts recentOEE
  = map downtimeAlert
      (List.filter (fun oee => downtimePercent oee >? 20) recentOEE).
Proof. unfold downtimeAlerts. by rewrite fold_left_push. Qed.

(** The alerts of the scrap scan are those of the entries that hold a
    number above 50. *)
Lemma scrapAlerts_In call recentScrap :
  In call (scrapAlerts recentScrap)
  <-> exists line quantity,
        In (line, JsObject.VNum quantity)
           (JsObject.entries (scrapByLine recentScrap))
        /\ (quantity >? 50) = true
        /\ call = scrapAlert line quantity.
Proof.
  unfold scrapAlerts.
  generalize (JsObject.entries (scrapByLine recentScrap)). intros l.
  assert (H : forall acc,
    In call
      (fold_left
         (fun calls entry =>
            match snd entry with
            | JsObject.VNum quantity =>
                if quantity >? 50
                then calls ++ [scrapAlert (fst entry) quantity]
                else calls
            | JsObject.Appended _ _ => calls
            end) l acc)
    <-> In call acc
        \/ exists line quantity,
             In (line, JsObject.VNum quantity) l
             /\ (quantity >? 50) = true
             /\ call = scrapAlert line quantity).
  { induction l as [|[k v] l IH]; intros acc; cbn [fold_left fst snd].
    - split; [by left | by intros [?|(? & ? & [] & _)]].
    - rewrite IH. destruct v as [q|m a].
      + destruct (q >? 50) eqn:E.
        * rewrite in_app_iff. split.
          -- intros [[?|[<-|[]]]|(line & c & ? & ? & ?)]; [by left| |].
             ++ right. exists k, q. split; [by left | done].
             ++ right. exists line, c. split; [by right | done].
          -- intros [?|(line & c & [[= -> ->]|?] & ? & ->)].
             ++ by left; left.
             ++ left; right. by left.
             ++ right. by exists line, c.
        * split.
          -- intros [?|(line & c & ? & ? & ?)]; [by left|].
             right. exists line, c. split; [by right | done].
          -- intros [?|(line & c & [[= -> ->]|?] & Hgt & ->)]; [by left| |].
             ++ congruence.
             ++ right. by exists line, c.
      + split.
        * intros [?|(line & c & ? & ? & ?)]; [by left|].
          right. exists line, c. split; [by right | done].
        * intros [?|(line & c & [[=]|?] & Hgt & ->)]; [by left|].
          right. by exists line, c. }
  rewrite H. split; [by intros [[]|?] | by right].
Qed.

(** C1, counterexample. A record with 80 minutes of downtime in 480 raises
    the Insight Engine's downtime alert and no periodic-scan alert; defect
    events whose largest type totals 12 raise the Insight Engine's scrap
    insight and no periodic-scan alert. *)
Lemma monitor_thresholds_differ :
  (AIService.detectDowntimePatterns [Samples.down80]
   = [AIService.downtimeInsight Samples.down80]
   /\ downtimeAlerts [Samples.down80] = [])
  /\ (AIService.detectScrapPatterns Samples.defects
      = [AIService.scrapInsight "B" 12]
      /\ scrapAlerts Samples.defects = []).
Proof. by repeat split. Qed.

(** C1, as amended. The periodic monitor applies thresholds of its own,
    higher than the Insight Engine's.  Over the same production records it
    alerts exactly for the records with downtime / plannedProductionTime *
    100 > 20, the Insight Engine exactly for those above 15, so every record
    that raises a periodic-scan downtime alert raises the Insight Engine's.
    Over defect events whose quantities are finite and not 0, every
    scrap alert is for a line whose summed quantity exceeds 50, and every
    line whose summed quantity exceeds 50 has its alert unless its name is
    that of a member of [Object.prototype]. *)
Theorem monitor_thresholds
  (recentOEE : list OEE.t) (recentScrap : list Scrap.t) :
  Forall (fun s => Spec.countable (Scrap.quantity s) = true) recentScrap ->
  let lineTotal line := Spec.total Scrap.line Scrap.quantity line recentScrap in
  downtimeAlerts recentOEE
  = map downtimeAlert
      (List.filter (fun oee => AIService.downtimePercent oee >? 20) recentOEE)
  /\ AIService.detectDowntimePatterns recentOEE
     = map AIService.downtimeInsight
         (List.filter (fun oee => AIService.downtimePercent oee >? 15)
                      recentOEE)
  /\ (forall oee,
        (AIService.downtimePercent oee >? 20) = true ->
        (AIService.downtimePercent oee >? 15) = true)
  /\ (forall call,
        In call (scrapAlerts recentScrap) ->
        exists line,
          In line (map Scrap.line recentScrap)
          /\ (lineTotal line >? 50) = true
          /\ call = scrapAlert line (lineTotal line))
  /\ (forall line,
        JsObject.inherited line = false ->
        In line (map Scrap.line recentScrap) ->
        (lineTotal line >? 50) = true ->
        In (scrapAlert line (lineTotal line)) (scrapAlerts recentScrap)).
Proof.
  intros Hq lineTotal.
  split; [apply downtimeAlerts_filter|].
  split; [apply DoubleInsights.detectDowntimePatterns_filter|].
  split; [intros oee; apply gt_20_gt_15|].
  assert (Hnd : NoDup (map fst (scrapByLine recentScrap)))
    by (apply (group_NoDup Scrap.line Scrap.quantity); constructor).
  assert (Hown : forall line c,
    In (line, JsObject.VNum c) (JsObject.entries (scrapByLine recentScrap))
    <-> JsObject.inherited line = false
        /\ In line (map Scrap.line recentScrap)
        /\ c = lineTotal line).
  { intros line c. unfold lineTotal.
    rewrite <- (own_group_number Scrap.line Scrap.quantity line c recentScrap Hq).
    rewrite entries_In. split; [by apply In_own | apply own_In]. }
  split.
  - intros call (line & c & Hin & Hgt & ->)%scrapAlerts_In.
    apply Hown in Hin as (_ & Hline & ->). by exists line.
  - intros line Hk Hline Hgt. apply scrapAlerts_In.
    exists line, (lineTotal line). split; [|done]. by apply Hown.
Qed.

Lemma monitor_thresholds_witness :
  Forall (fun s => Spec.countable (Scrap.quantity s) = true) Samples.heavy_scrap
  /\ downtimeAlerts [Samples.down80; Samples.down120]
     = [downtimeAlert Samples.down120]
  /\ AIService.detectDowntimePatterns [Samples.down80; Samples.down120]
     = [AIService.downtimeInsight Samples.down80;
        AIService.downtimeInsight Samples.down120]
  /\ In (scrapAlert "L1" 60) (scrapAlerts Samples.heavy_scrap).
Proof.
  assert (Hq : Forall (fun s => Spec.countable (Scrap.quantity s) = true)
                      Samples.heavy_scrap) by (by repeat constructor).
  split; [exact Hq|].
  destruct (monitor_thresholds [Samples.down80; Samples.down120]
              Samples.heavy_scrap Hq) as (H1 & H2 & _ & _ & H5).
  rewrite H1, H2. split; [done|]. split; [done|].
  apply (H5 "L1"); [done | by left | done].
Defined.

End DoubleMonitor.

(** ** The scrap check and the prototype *)

Module DoubleScrap.
Import PrimFloat.
Import Double Double.AIService.
Local Open Scope float_scope.

(** The scrap example of the specification: defect events {A: 5, B: 12,
    C: 3} give one opportunity insight, titled for B, with scrapReduction
    6. *)
Example detectScrapPatterns_example :
  detectScrapPatterns Samples.defects = [scrapInsight "B" 12]
  /\ AIInsight.impact (scrapInsight "B" 12)
     = Some {| AIInsight.timeSaved := None; AIInsight.costImpact := None;
               AIInsight.scrapReduction := Some 6 |}.
Proof. by split. Qed.

(** C6, the code at the failing input. Twelve units scrapped under the
    defect type "constructor" are the highest (and only) total and exceed
    10, yet no insight is emitted: reading the property finds the member
    inherited from [Object.prototype], the sum becomes a string, and the
    string fails the test against 10.  The same events under the type "B"
    give the insight. *)
Theorem detectScrapPatterns_prototype_key :
  Spec.total Scrap.defectType Scrap.quantity "constructor"
    [Samples.defect "L1" "constructor" 12] = 12
  /\ (12 >? 10) = true
  /\ defectCounts [Samples.defect "L1" "constructor" 12]
     = [("constructor", JsObject.Appended "constructor" [12])]
  /\ detectScrapPatterns [Samples.defect "L1" "constructor" 12] = []
  /\ detectScrapPatterns [Samples.defect "L1" "B" 12] = [scrapInsight "B" 12].
Proof. by repeat split. Qed.

End DoubleScrap.
